(** * Execution job orchestrator of the AI compiler IDE

    A shallow embedding of the code-execution subsystem:
    - [CodeRunner]: the local runner (services/codeRunner.ts):
      [executeWithProcess], the temp-file naming of the per-language
      executors and the [runCode] dispatcher;
    - [CompileRoutes]: the Express compile routes (routes/compile.ts):
      the submit and status handlers and [processCompilation];
    - [CompilationService]: the Judge0 compilation service
      (submit, status, polling, validation and the malicious-code scan).

    JavaScript strings are modelled as [string] (8-bit characters); numbers
    that are counts, sizes or millisecond clocks are [N] or [Z]. *)

From Stdlib Require Import ZArith NArith Ascii String List Lia Bool.
From Stdlib Require Import DecimalString DecimalN QArith Qround.
From stdpp Require Import gmap strings list.

Local Open Scope string_scope.
Local Open Scope Z_scope.
Local Open Scope list_scope.

(** ** JavaScript primitives used by the sources *)

Module Js.

(** [String.prototype.toLowerCase] on 8-bit characters: A-Z go to a-z. *)
Definition lowerChar (c : ascii) : ascii :=
  let n := N_of_ascii c in
  if ((65 <=? n) && (n <=? 90))%N then ascii_of_N (n + 32) else c.

Fixpoint toLowerCase (s : string) : string :=
  match s with
  | EmptyString => EmptyString
  | String c r => String (lowerChar c) (toLowerCase r)
  end.

(** The regular-expression class [\s] restricted to 8-bit characters:
    tab, line feed, vertical tab, form feed, carriage return, space. *)
Definition isSpace (c : ascii) : bool :=
  let n := N_of_ascii c in
  (((9 <=? n) && (n <=? 13)) || (n =? 32))%N.

Definition newline : string := String "010" "".

(** [String(n)] for a non-negative integer. *)
Definition showN (n : N) : string := NilEmpty.string_of_uint (N.to_uint n).

(** [s.substring(0, n)]. *)
Definition prefix (n : nat) (s : string) : string := String.substring 0 n s.

(** [xs.join(sep)] on strings. *)
Fixpoint join (sep : string) (xs : list string) : string :=
  match xs with
  | [] => ""
  | [x] => x
  | x :: rest => x +:+ sep +:+ join sep rest
  end.

(** [c.repeat(n)] for a one-character string. *)
Fixpoint repeat (c : ascii) (n : nat) : string :=
  match n with
  | O => ""
  | S k => String c (repeat c k)
  end.

(** [s.startsWith(t)]. *)
Fixpoint startsWith (t s : string) : bool :=
  match t, s with
  | EmptyString, _ => true
  | String c t', String d s' => Ascii.eqb c d && startsWith t' s'
  | String _ _, EmptyString => false
  end.

(** [s.includes(t)]. *)
Fixpoint includes (t s : string) : bool :=
  startsWith t s
  || match s with
     | String _ s' => includes t s'
     | EmptyString => false
     end.

(** The property names every object literal inherits from
    [Object.prototype]. *)
Definition objectPrototypeKeys : list string :=
  [ "constructor"; "__proto__"; "hasOwnProperty"; "isPrototypeOf";
    "propertyIsEnumerable"; "toLocaleString"; "toString"; "valueOf";
    "__defineGetter__"; "__defineSetter__"; "__lookupGetter__"; "__lookupSetter__" ].

(** [table[key]] on an object literal used as a map: an own entry, a
    property inherited from [Object.prototype] (truthy, but no entry), or
    [undefined]. *)
Inductive Property (A : Type) :=
| Own (a : A)
| Inherited
| Undefined.
Arguments Own {A} a.
Arguments Inherited {A}.
Arguments Undefined {A}.

Fixpoint ownProperty {A : Type} (table : list (string * A)) (key : string) : option A :=
  match table with
  | [] => None
  | (k, v) :: rest => if String.eqb key k then Some v else ownProperty rest key
  end.

Definition getProperty {A : Type} (table : list (string * A)) (key : string) : Property A :=
  match ownProperty table key with
  | Some v => Own v
  | None => if existsb (String.eqb key) objectPrototypeKeys then Inherited else Undefined
  end.

(** [Math.round]: the nearest integer, halves rounded up. *)
Definition mathRound (q : Q) : Z := Qfloor (q + (1 # 2))%Q.




(** [s.split(sep)] for a one-character separator: never empty. *)
Fixpoint split (sep : ascii) (s : string) : list string :=
  match s with
  | EmptyString => [EmptyString]
  | String c r =>
      if Ascii.eqb c sep then EmptyString :: split sep r
      else match split sep r with
           | piece :: pieces => String c piece :: pieces
           | [] => [String c EmptyString]
           end
  end.

(** [xs.slice(from, -1)]: from index [from] up to, not including, the
    last element. *)
Definition sliceToLast {A : Type} (from : nat) (xs : list A) : list A :=
  List.firstn (length xs - 1 - from) (List.skipn from xs).

(** Does the character occur in the string? *)
Fixpoint hasChar (c : ascii) (s : string) : bool :=
  match s with
  | EmptyString => false
  | String d r => Ascii.eqb d c || hasChar c r
  end.

(** [Math.ceil(d / 1000)] for an integer [d]. *)
Definition ceilDiv1000 (d : Z) : Z := - ((- d) / 1000).

End Js.

(** ** The local code runner *)

Module CodeRunner.

Inductive ExecStatus := ExSuccess | ExError | ExTimeout.

Record ExecutionResult := mkResult {
  status : ExecStatus;
  stdout : string;
  stderr : string;
  exitCode : Z;
  executionTimeMs : Z;
  memoryUsedKb : option Z
}.

Record ExecutionOptions := mkOptions {
  timeout : option N;
  memoryLimit : option N;
  stdin : option string
}.

(** [options.x || d] for a number: [undefined] and [0] are falsy. *)
Definition orDefault (o : option N) (d : N) : N :=
  match o with
  | Some n => if (n =? 0)%N then d else n
  | None => d
  end.

(** What the child process and the event loop deliver to the callbacks
    registered by [executeWithProcess]. [now] is [Date.now()] when the
    callback runs; the exit code of a child ended by a signal is [null]. *)
Inductive ProcEvent :=
| StdoutData (chunk : string)
| StderrData (chunk : string)
| TimerFired
| Close (code : option Z) (now : Z)
| ProcError (message : string) (now : Z).

Inductive Signal := SIGTERM.

(** The target of a kill. [subprocess.kill(sig)] signals the child's own
    pid: [ChildOnly]. A process group is reached only through
    [process.kill(-pid, sig)] on a child spawned with [detached]. *)
Inductive KillTarget := ChildOnly | ProcessGroup.

(** The calls [executeWithProcess] makes on the outside world. [Spawn]
    records the [timeout] option handed to [spawn] (Node then signals the
    child, and the child alone, when that time is up) and that the child
    is not [detached]. *)
Inductive Action :=
| Spawn (command : string) (args : list string) (spawnTimeout : N) (detached : bool)
| SetTimeout (ms : N)
| StdinWrite (data : string)
| StdinEnd
| Kill (target : KillTarget) (sig : Signal)
| ClearTimeout.

(** The closure state of one [executeWithProcess] call. [timerPending]
    tells whether the [setTimeout] callback can still run; [resolved] is
    the value the promise was resolved with (only the first resolve
    counts). *)
Record ProcState := mkProc {
  outBuf : string;
  errBuf : string;
  killed : bool;
  timerPending : bool;
  resolved : option ExecutionResult;
  actions : list Action
}.

Definition resolve (r : ExecutionResult) (cur : option ExecutionResult) : option ExecutionResult :=
  match cur with
  | Some r0 => Some r0
  | None => Some r
  end.

Definition timeoutNotice (timeoutMs : N) : string :=
  Js.newline +:+ "Execution timed out after " +:+ Js.showN timeoutMs +:+ "ms".

(** The result built by the ['close'] listener. *)
Definition closeResult (st : ProcState) (timeoutMs : N) (startTime : Z)
    (code : option Z) (now : Z) : ExecutionResult :=
  if killed st then
    mkResult ExTimeout (outBuf st) (errBuf st +:+ timeoutNotice timeoutMs) 124
             (now - startTime) None
  else
    mkResult (match code with Some 0 => ExSuccess | _ => ExError end)
             (outBuf st) (errBuf st)
             (match code with Some c => c | None => 0 end)
             (now - startTime) None.

(** One callback run. *)
Definition handle (timeoutMs : N) (startTime : Z) (st : ProcState) (ev : ProcEvent) : ProcState :=
  match ev with
  | StdoutData d =>
      mkProc (outBuf st +:+ d) (errBuf st) (killed st) (timerPending st)
             (resolved st) (actions st)
  | StderrData d =>
      mkProc (outBuf st) (errBuf st +:+ d) (killed st) (timerPending st)
             (resolved st) (actions st)
  | TimerFired =>
      if timerPending st then
        mkProc (outBuf st) (errBuf st) true false (resolved st)
               (actions st ++ [Kill ChildOnly SIGTERM])
      else st
  | Close code now =>
      mkProc (outBuf st) (errBuf st) (killed st) false
             (resolve (closeResult st timeoutMs startTime code now) (resolved st))
             (actions st ++ [ClearTimeout])
  | ProcError msg now =>
      mkProc (outBuf st) (errBuf st) (killed st) false
             (resolve (mkResult ExError "" msg 1 (now - startTime) None) (resolved st))
             (actions st ++ [ClearTimeout])
  end.

(** The synchronous part of the promise executor: spawn, arm the timer,
    feed stdin. *)
Definition startProcess (command : string) (args : list string)
    (options : ExecutionOptions) : ProcState :=
  let timeoutMs := orDefault (timeout options) 30000 in
  mkProc "" "" false true None
    ([Spawn command args timeoutMs false; SetTimeout timeoutMs]
     ++ match stdin options with
        | Some s => if String.eqb s "" then [] else [StdinWrite s]
        | None => []
        end
     ++ [StdinEnd]).

Definition runEvents (timeoutMs : N) (startTime : Z) (st : ProcState)
    (evs : list ProcEvent) : ProcState :=
  fold_left (handle timeoutMs startTime) evs st.

(** [executeWithProcess command args code options], started at
    [startTime], under the event sequence [evs]: the value the promise
    resolves with (if any callback resolved it) and the calls made. The
    [code] argument is not used by the source either. *)
Definition executeWithProcess (command : string) (args : list string) (code : string)
    (options : ExecutionOptions) (startTime : Z) (evs : list ProcEvent)
    : option ExecutionResult * list Action :=
  let timeoutMs := orDefault (timeout options) 30000 in
  let st := runEvents timeoutMs startTime (startProcess command args options) evs in
  (resolved st, actions st).

Definition isData (ev : ProcEvent) : bool :=
  match ev with
  | StdoutData _ | StderrData _ => true
  | _ => false
  end.

Definition isKill (a : Action) : bool :=
  match a with
  | Kill _ _ => true
  | _ => false
  end.

Definition killsOf (acts : list Action) : list Action := List.filter isKill acts.

(** All stdout (stderr) chunks of an event sequence, in order. *)
Fixpoint stdoutOf (evs : list ProcEvent) : string :=
  match evs with
  | [] => ""
  | StdoutData d :: r => d +:+ stdoutOf r
  | _ :: r => stdoutOf r
  end.

Fixpoint stderrOf (evs : list ProcEvent) : string :=
  match evs with
  | [] => ""
  | StderrData d :: r => d +:+ stderrOf r
  | _ :: r => stderrOf r
  end.

(** *** Temp files of the interpreter-backed executors *)

(** [path.join(a, b)] for a directory [a] without trailing separator and a
    plain file or directory name [b]. *)
Definition pathJoin (a b : string) : string := a +:+ "/" +:+ b.

(** [TEMP_DIR = path.join(os.tmpdir(), 'ai-ide-runner')]: one directory for
    the whole server process. [tmpdir] is the value of [os.tmpdir()]. *)
Definition TEMP_DIR (tmpdir : string) : string := pathJoin tmpdir "ai-ide-runner".

(** The [tempFile] of an executor: [`${prefix}_${Date.now()}${ext}`]
    under [TEMP_DIR]. *)
Definition tempFile (tmpdir : string) (prefix ext : string) (now : N) : string :=
  pathJoin (TEMP_DIR tmpdir) (prefix +:+ "_" +:+ Js.showN now +:+ ext).

(** The files under the temp directory: path to content. *)
Definition writeFileSync (fs : gmap string string) (path data : string) : gmap string string :=
  <[path := data]> fs.

(** [try { fs.unlinkSync(path) } catch {}]: a missing file is ignored. *)
Definition unlinkSync (fs : gmap string string) (path : string) : gmap string string :=
  delete path fs.

Definition interpreterNotFound : ExecutionResult :=
  mkResult ExError ""
    "Python interpreter not found. Please install Python to execute Python code locally."
    1 0 None.

(** [executePython] up to its [await]: the temp file is named and written.
    [writable] tells whether [fs.writeFileSync] succeeds. *)
Definition pythonMaterialize (tmpdir : string) (code : string) (now : N)
    (writable : bool) (fs : gmap string string) : string * gmap string string :=
  let file := tempFile tmpdir "python" ".py" now in
  (file, if writable then writeFileSync fs file code else fs).

(** [executePython code options] called at [Date.now() = now], the child
    process started at [startTime] and delivering [evs]: the result (if
    the child ever closes) and the files left. A failed write throws
    before any process is spawned; the [catch] then retries the write,
    which fails again, and reports a missing interpreter. *)
Definition executePython (tmpdir : string) (code : string) (options : ExecutionOptions)
    (now : N) (startTime : Z) (writable : bool) (evs : list ProcEvent)
    (fs : gmap string string) : option ExecutionResult * gmap string string :=
  let '(file, fs1) := pythonMaterialize tmpdir code now writable fs in
  if writable then
    match fst (executeWithProcess "python3" [file] code options startTime evs) with
    | Some r => (Some r, unlinkSync fs1 file)
    | None => (None, fs1)
    end
  else (Some interpreterNotFound, unlinkSync fs1 file).

(** *** The dispatcher *)

Inductive Executor :=
| ExecJavaScript | ExecTypeScript | ExecPython | ExecRuby
| ExecPHP | ExecShell | ExecLua | ExecPerl.

(** The [case] labels of [runCode]'s [switch], in source order. *)
Definition dispatchTable : list (string * Executor) :=
  [ ("javascript", ExecJavaScript); ("js", ExecJavaScript);
    ("typescript", ExecTypeScript); ("ts", ExecTypeScript);
    ("python", ExecPython); ("python3", ExecPython); ("py", ExecPython);
    ("ruby", ExecRuby); ("rb", ExecRuby);
    ("php", ExecPHP);
    ("shell", ExecShell); ("bash", ExecShell); ("sh", ExecShell);
    ("lua", ExecLua);
    ("perl", ExecPerl); ("pl", ExecPerl) ].

Fixpoint switchOn (table : list (string * Executor)) (l : string) : option Executor :=
  match table with
  | [] => None
  | (label, e) :: rest => if String.eqb l label then Some e else switchOn rest l
  end.

(** A settled promise: fulfilled with a value or rejected with a message. *)
Inductive Settled (A : Type) :=
| Fulfilled (a : A)
| Rejected (message : string).
Arguments Fulfilled {A} a.
Arguments Rejected {A} message.

(** [code.substring(0, 500)] followed by ['...'] when the code is longer. *)
Definition codePreview (code : string) : string :=
  Js.prefix 500 code +:+ (if (500 <? String.length code)%nat then "..." else "").

(** The object returned by the [default] branch. *)
Definition syntaxValidResult (language code : string) : ExecutionResult :=
  mkResult ExSuccess
    ("Code syntax for " +:+ language +:+ " appears valid!" +:+ Js.newline +:+ Js.newline
     +:+ "📝 For full " +:+ language
     +:+ " compilation, the Judge0 API or a local compiler is required."
     +:+ Js.newline +:+ Js.newline
     +:+ "Code preview:" +:+ Js.newline +:+ codePreview code)
    "" 0 0 None.

(** [runCode language code options]. The eight executors start child
    processes or a VM; [exec] stands for them: how the promise of the
    chosen executor settles. *)
Definition runCode (exec : Executor -> string -> ExecutionOptions -> Settled ExecutionResult)
    (language code : string) (options : ExecutionOptions) : Settled ExecutionResult :=
  let normalizedLanguage := Js.toLowerCase language in
  match switchOn dispatchTable normalizedLanguage with
  | Some e => exec e code options
  | None => Fulfilled (syntaxValidResult language code)
  end.

(** *** The other temp-file executors and the sweep *)

(** The languages run from a temp file by an interpreter. *)
Inductive TempLanguage := TPython | TRuby | TPhp | TShell | TLua | TPerl.

Definition filePrefix (k : TempLanguage) : string :=
  match k with
  | TPython => "python" | TRuby => "ruby" | TPhp => "php"
  | TShell => "shell" | TLua => "lua" | TPerl => "perl"
  end.

Definition fileExtension (k : TempLanguage) : string :=
  match k with
  | TPython => ".py" | TRuby => ".rb" | TPhp => ".php"
  | TShell => ".sh" | TLua => ".lua" | TPerl => ".pl"
  end.

Definition interpreter (k : TempLanguage) : string :=
  match k with
  | TPython => "python3" | TRuby => "ruby" | TPhp => "php"
  | TShell => "bash" | TLua => "lua" | TPerl => "perl"
  end.

(** The [stderr] of the result returned by the executor's [catch]. *)
Definition notFoundMessage (k : TempLanguage) : string :=
  match k with
  | TPython =>
      "Python interpreter not found. Please install Python to execute Python code locally."
  | TRuby => "Ruby interpreter not found. Please install Ruby to execute Ruby code locally."
  | TPhp => "PHP interpreter not found. Please install PHP to execute PHP code locally."
  | TShell => "Bash shell not available."
  | TLua => "Lua interpreter not found. Please install Lua to execute Lua code locally."
  | TPerl => "Perl interpreter not found. Please install Perl to execute Perl code locally."
  end.

(** The [tempFile] of the executor of [k] called at [Date.now() = now]. *)
Definition tempFileOf (tmpdir : string) (k : TempLanguage) (now : N) : string :=
  tempFile tmpdir (filePrefix k) (fileExtension k) now.

(** [executeRuby], [executePHP], [executeShell], [executeLua] and
    [executePerl] share one body: write the temp file (and, for the
    shell, [chmod] it), await [executeWithProcess], unlink, return; the
    [catch] unlinks and returns the not-found result. [writable] tells
    whether the synchronous file calls succeed. *)
Definition executeFromTempFile (k : TempLanguage) (tmpdir : string) (code : string)
    (options : ExecutionOptions) (now : N) (startTime : Z) (writable : bool)
    (evs : list ProcEvent) (fs : gmap string string)
    : option ExecutionResult * gmap string string :=
  let file := tempFileOf tmpdir k now in
  if writable then
    let fs1 := writeFileSync fs file code in
    match fst (executeWithProcess (interpreter k) [file] code options startTime evs) with
    | Some r => (Some r, unlinkSync fs1 file)
    | None => (None, fs1)
    end
  else (Some (mkResult ExError "" (notFoundMessage k) 1 0 None), unlinkSync fs file).

Definition executeRuby := executeFromTempFile TRuby.
Definition executePHP := executeFromTempFile TPhp.
Definition executeShell := executeFromTempFile TShell.
Definition executeLua := executeFromTempFile TLua.
Definition executePerl := executeFromTempFile TPerl.




(** The settling events: the ['close'] and ['error'] listeners resolve
    the promise. *)
Definition settles (ev : ProcEvent) : bool :=
  match ev with
  | Close _ _ | ProcError _ _ => true
  | _ => false
  end.

End CodeRunner.

(** ** The compile routes *)

Module CompileRoutes.

Inductive JobStatus := Pending | Running | Success | Error | Timeout.

Record SourceFile := mkFile { path : string; content : string }.

Record CompilerOptions := mkCompilerOptions {
  flags : option string;
  optimizationLevel : option string;
  debugInfo : option bool
}.

Definition noOptions : CompilerOptions := mkCompilerOptions None None None.

(** A job object of the [compilationJobs] map. The fields after
    [createdAt] are absent ([undefined]) until assigned; the submit
    handler never sets [stdin]. *)
Record Job := mkJob {
  id : string;
  userId : string;
  workspaceId : string;
  language : string;
  sourceFiles : list SourceFile;
  compilerOptions : CompilerOptions;
  status : JobStatus;
  createdAt : Z;
  stdin : option string;
  stdout : option string;
  stderr : option string;
  exitCode : option Z;
  completedAt : option Z;
  executionTimeMs : option Z;
  memoryUsedKb : option Z
}.

(** An entry of the routes' [LANGUAGE_CONFIGS]. *)
Record LangConfig := mkLang {
  extension : string;
  runCommand : string;
  compileCommand : option string
}.

Definition LANGUAGE_CONFIGS : list (string * LangConfig) :=
  [ ("javascript", mkLang ".js" "node" None);
    ("typescript", mkLang ".ts" "ts-node" None);
    ("python", mkLang ".py" "python3" None);
    ("cpp", mkLang ".cpp" "./a.out" (Some "g++"));
    ("c", mkLang ".c" "./a.out" (Some "gcc"));
    ("rust", mkLang ".rs" "./main" (Some "rustc"));
    ("go", mkLang ".go" "./main" (Some "go build"));
    ("java", mkLang ".java" "java Main" (Some "javac"));
    ("kotlin", mkLang ".kt" "kotlin MainKt" (Some "kotlinc"));
    ("scala", mkLang ".scala" "scala Main" (Some "scalac"));
    ("csharp", mkLang ".cs" "dotnet run" (Some "dotnet build"));
    ("fsharp", mkLang ".fs" "dotnet run" (Some "dotnet build"));
    ("php", mkLang ".php" "php" None);
    ("ruby", mkLang ".rb" "ruby" None);
    ("perl", mkLang ".pl" "perl" None);
    ("lua", mkLang ".lua" "lua" None);
    ("shell", mkLang ".sh" "bash" None);
    ("powershell", mkLang ".ps1" "pwsh" None);
    ("haskell", mkLang ".hs" "./main" (Some "ghc"));
    ("ocaml", mkLang ".ml" "./main" (Some "ocamlc"));
    ("clojure", mkLang ".clj" "clojure" None);
    ("swift", mkLang ".swift" "./main" (Some "swiftc"));
    ("dart", mkLang ".dart" "dart" None);
    ("r", mkLang ".r" "Rscript" None);
    ("julia", mkLang ".jl" "julia" None);
    ("nim", mkLang ".nim" "./main" (Some "nim c"));
    ("zig", mkLang ".zig" "./main" (Some "zig build-exe"));
    ("v", mkLang ".v" "./main" (Some "v")) ].

(** [!langConfig] is false for an own entry and for an inherited
    property alike. *)
Definition hasLangConfig (language : string) : bool :=
  match Js.getProperty LANGUAGE_CONFIGS language with
  | Js.Undefined => false
  | _ => true
  end.

Definition languageMap : list (string * Z) :=
  [ ("javascript", 63); ("python", 71); ("cpp", 54); ("c", 50); ("java", 62);
    ("typescript", 74); ("csharp", 51); ("php", 68); ("ruby", 72); ("go", 60);
    ("rust", 73); ("kotlin", 78); ("scala", 81); ("swift", 83); ("r", 80);
    ("haskell", 61); ("lua", 64); ("perl", 85); ("dart", 90) ].

(** What [getJudge0LanguageId] returns when it is not [null]: a number of
    the map, or an inherited property (truthy, and dropped from the JSON
    body of the submission). *)
Inductive LanguageId :=
| IdNumber (n : Z)
| IdInherited.

(** [getJudge0LanguageId]: [languageMap[language] || null]. *)
Definition getJudge0LanguageId (language : string) : option LanguageId :=
  match Js.getProperty languageMap language with
  | Js.Own n => if n =? 0 then None else Some (IdNumber n)
  | Js.Inherited => Some IdInherited
  | Js.Undefined => None
  end.

(** The fields of a request body as the handler tests them. A string
    field is falsy when absent or empty. *)
Inductive SourceFilesField :=
| SfAbsent
| SfNotArray
| SfArray (files : list SourceFile).

Record SubmitBody := mkBody {
  b_workspaceId : option string;
  b_language : option string;
  b_sourceFiles : SourceFilesField;
  b_compilerOptions : option CompilerOptions
}.

Definition truthy (o : option string) : option string :=
  match o with
  | Some s => if String.eqb s "" then None else Some s
  | None => None
  end.

Record JobView := mkView {
  v_id : string;
  v_language : string;
  v_status : JobStatus;
  v_stdout : option string;
  v_stderr : option string;
  v_exitCode : option Z;
  v_executionTimeMs : option Z;
  v_memoryUsedKb : option Z;
  v_createdAt : Z;
  v_completedAt : option Z
}.

Inductive Response :=
| ErrorResponse (code : Z) (error : string)
| Accepted (jobId : string) (status : JobStatus) (message : string)
| JobJson (view : JobView).

(** *** What the outside world answers during one [processCompilation] *)

Record SubmissionResult := mkSubmission {
  status_id : option Z;
  r_stdout : option string;
  r_stderr : option string;
  compile_output : option string;
  time : option Q;
  memory : option Q
}.

Inductive JsonBody :=
| JsonThrows
| JsonValue (r : SubmissionResult).

(** How [await fetch(...)] settles: rejected (network error), or a
    response with its [ok] flag and what [response.json()] gives. *)
Inductive FetchOutcome :=
| FetchRejects (message : string)
| FetchResponse (ok : bool) (body : JsonBody).

Record Env := mkEnv {
  fetchOutcome : FetchOutcome;
  exec : CodeRunner.Executor -> string -> CodeRunner.ExecutionOptions
         -> CodeRunner.Settled CodeRunner.ExecutionResult;
  now : Z;
  random1 : Q;
  random2 : Q
}.

Definition orEmpty (o : option string) : string :=
  match truthy o with
  | Some s => s
  | None => ""
  end.

Definition orElse (a b : option string) : option string :=
  match truthy a with
  | Some s => Some s
  | None => b
  end.

Definition orZero (o : option Q) : Q :=
  match o with
  | Some q => q
  | None => 0%Q
  end.

(** [job.sourceFiles[0]?.content || '']. *)
Definition firstContent (job : Job) : string :=
  match sourceFiles job with
  | f :: _ => content f
  | [] => ""
  end.

Definition ofExecStatus (s : CodeRunner.ExecStatus) : JobStatus :=
  match s with
  | CodeRunner.ExSuccess => Success
  | CodeRunner.ExError => Error
  | CodeRunner.ExTimeout => Timeout
  end.

(** The object returned by [executeLocally]. *)
Record LocalResult := mkLocal {
  l_status : JobStatus;
  l_stdout : string;
  l_stderr : string;
  l_exitCode : Z
}.

(** [executeLocally language sourceCode stdin]: [runCode] with a 30 s
    timeout; a rejection becomes an error result, so this never rejects. *)
Definition executeLocally
    (exec : CodeRunner.Executor -> string -> CodeRunner.ExecutionOptions
            -> CodeRunner.Settled CodeRunner.ExecutionResult)
    (language sourceCode : string) (stdin : option string) : LocalResult :=
  match CodeRunner.runCode exec language sourceCode
          (CodeRunner.mkOptions (Some 30000%N) None stdin) with
  | CodeRunner.Fulfilled r =>
      mkLocal (ofExecStatus (CodeRunner.status r)) (CodeRunner.stdout r)
              (CodeRunner.stderr r) (CodeRunner.exitCode r)
  | CodeRunner.Rejected msg =>
      mkLocal Error "" (if String.eqb msg "" then "Execution failed" else msg) 1
  end.

(** [Object.assign(job, result, { completedAt, executionTimeMs,
    memoryUsedKb })] of the two local-fallback sites. *)
Definition assignLocal (env : Env) (job : Job) (r : LocalResult) : Job :=
  mkJob (id job) (userId job) (workspaceId job) (language job) (sourceFiles job)
        (compilerOptions job) (l_status r) (createdAt job) (stdin job)
        (Some (l_stdout r)) (Some (l_stderr r)) (Some (l_exitCode r))
        (Some (now env))
        (Some (Js.mathRound (random1 env * 1000 + 100)%Q))
        (Some (Js.mathRound (random2 env * 10000 + 1000)%Q)).

Definition localFallback (env : Env) (job : Job) : Job :=
  assignLocal env job (executeLocally (exec env) (language job) (firstContent job) (stdin job)).

(** [Object.assign(job, { status: ..., ... })] after a Judge0 answer. *)
Definition assignRemote (env : Env) (job : Job) (r : SubmissionResult) : Job :=
  let ok := match status_id r with Some 3 => true | _ => false end in
  mkJob (id job) (userId job) (workspaceId job) (language job) (sourceFiles job)
        (compilerOptions job) (if ok then Success else Error) (createdAt job) (stdin job)
        (Some (orEmpty (r_stdout r)))
        (Some (orEmpty (orElse (r_stderr r) (compile_output r))))
        (Some (if ok then 0 else 1))
        (Some (now env))
        (Some (Js.mathRound (orZero (time r) * 1000)%Q))
        (Some (Js.mathRound (orZero (memory r)))).

Definition setStatus (job : Job) (s : JobStatus) : Job :=
  mkJob (id job) (userId job) (workspaceId job) (language job) (sourceFiles job)
        (compilerOptions job) s (createdAt job) (stdin job)
        (stdout job) (stderr job) (exitCode job)
        (completedAt job) (executionTimeMs job) (memoryUsedKb job).

(** [processCompilation] after [job.status = 'running']: the [try] block
    and its [catch]. A missing Judge0 language id, a rejected [fetch] and
    a throwing [response.json()] all land in the [catch], which runs the
    local fallback; a response that is not [ok] runs it in place.
    [executeLocally] never rejects, so the inner [catch] is never
    entered. *)
Definition finishCompilation (env : Env) (job : Job) : Job :=
  match getJudge0LanguageId (language job) with
  | None => localFallback env job
  | Some languageId =>
      match fetchOutcome env with
      | FetchRejects _ => localFallback env job
      | FetchResponse false _ => localFallback env job
      | FetchResponse true JsonThrows => localFallback env job
      | FetchResponse true (JsonValue r) => assignRemote env job r
      end
  end.

(** The states of the job object that another request can observe
    during [processCompilation]: the running one (held across every
    [await]) and the final one. *)
Definition jobStates (env : Env) (job : Job) : list Job :=
  let running := setStatus job Running in
  [running; finishCompilation env running].

(** [processCompilation jobId] on the [compilationJobs] map: nothing for
    an unknown id; otherwise the successive observable stores. *)
Definition processCompilation (env : Env) (jobs : gmap string Job) (jobId : string)
    : list (gmap string Job) :=
  match jobs !! jobId with
  | None => []
  | Some job => List.map (fun j => <[jobId := j]> jobs) (jobStates env job)
  end.

(** The job object built by the submit handler. *)
Definition newJob (jobId userId workspaceId language : string)
    (files : list SourceFile) (opts : option CompilerOptions) (createdAt : Z) : Job :=
  mkJob jobId userId workspaceId language files
        (match opts with Some o => o | None => noOptions end)
        Pending createdAt None None None None None None None.

(** [POST /]: [jobId] is the fresh [uuidv4()], [createdAt] the clock. The
    handler stores the pending job and calls [processCompilation], which
    runs up to its first [await] before the response is sent: the store
    returned is the one at that time, where an accepted job is running. *)
Definition submitHandler (jobId : string) (createdAt : Z) (jobs : gmap string Job)
    (user : string) (body : SubmitBody) : Response * gmap string Job :=
  match truthy (b_workspaceId body), truthy (b_language body), b_sourceFiles body with
  | Some workspaceId, Some language, SfArray files =>
      if hasLangConfig language then
        let job := newJob jobId user workspaceId language files
                          (b_compilerOptions body) createdAt in
        (Accepted jobId Pending "Compilation job submitted",
         <[jobId := setStatus job Running]> (<[jobId := job]> jobs))
      else (ErrorResponse 400 ("Unsupported language: " +:+ language), jobs)
  | _, _, _ => (ErrorResponse 400 "Invalid request parameters", jobs)
  end.

(** [GET /:jobId]. *)
Definition statusHandler (jobs : gmap string Job) (user jobId : string) : Response :=
  match jobs !! jobId with
  | Some job =>
      if String.eqb (userId job) user then
        JobJson (mkView (id job) (language job) (status job) (stdout job) (stderr job)
                        (exitCode job) (executionTimeMs job) (memoryUsedKb job)
                        (createdAt job) (completedAt job))
      else ErrorResponse 404 "Compilation job not found"
  | None => ErrorResponse 404 "Compilation job not found"
  end.

Definition isTerminal (s : JobStatus) : bool :=
  match s with
  | Success | Error | Timeout => true
  | Pending | Running => false
  end.

(** [completedAt] is set exactly when the status is terminal. *)
Definition wellTimed (job : Job) : Prop :=
  is_Some (completedAt job) <-> isTerminal (status job) = true.

Definition jobsWellTimed (jobs : gmap string Job) : Prop :=
  map_Forall (fun _ job => wellTimed job) jobs.

(** *** Executing a compiled job *)

(** The object returned by [mockExecution]. *)
Record ExecutionReply := mkReply {
  e_executionId : string;
  e_stdout : string;
  e_stderr : string;
  e_exitCode : Z;
  e_executionTimeMs : Z;
  e_memoryUsedKb : Z;
  e_status : JobStatus
}.





End CompileRoutes.

(** ** The Judge0 compilation service *)

Module CompilationService.

Inductive Status := Pending | Running | Success | Error | Timeout.

Record SourceFile := mkFile { path : string; content : string }.

(** [CompilationRequest]. [sourceFiles] is optional here because the
    validator tests [!request.sourceFiles]. *)
Record CompilationRequest := mkRequest {
  workspaceId : string;
  language : string;
  sourceFiles : option (list SourceFile);
  compilerFlags : option string;
  input : option string
}.

(** *** The malicious-code scan *)

(** The regular expressions of [maliciousPatterns] use literal
    characters, [\s*] and [\s+] only, all under the [i] flag. *)
Inductive Atom :=
| Lit (c : ascii)
| SpaceStar
| SpacePlus.

Fixpoint lits (s : string) : list Atom :=
  match s with
  | EmptyString => []
  | String c r => Lit c :: lits r
  end.

(** Does the pattern match a prefix of [s]? Letters compare without case. *)
Fixpoint matchHere (p : list Atom) (s : string) {struct p} : bool :=
  match p with
  | [] => true
  | Lit c :: p' =>
      match s with
      | String d s' => Ascii.eqb (Js.lowerChar c) (Js.lowerChar d) && matchHere p' s'
      | EmptyString => false
      end
  | SpaceStar :: p' =>
      (fix star (t : string) : bool :=
         matchHere p' t
         || match t with
            | String d t' => Js.isSpace d && star t'
            | EmptyString => false
            end) s
  | SpacePlus :: p' =>
      match s with
      | String d s' =>
          Js.isSpace d &&
          (fix star (t : string) : bool :=
             matchHere p' t
             || match t with
                | String d t' => Js.isSpace d && star t'
                | EmptyString => false
                end) s'
      | EmptyString => false
      end
  end.

(** [pattern.test(s)]: a match starting anywhere in [s]. *)
Fixpoint test (p : list Atom) (s : string) : bool :=
  matchHere p s
  || match s with
     | String _ s' => test p s'
     | EmptyString => false
     end.

Definition maliciousPatterns : list (list Atom) :=
  [ lits "system" ++ [SpaceStar; Lit "("];
    lits "exec" ++ [SpaceStar; Lit "("];
    lits "eval" ++ [SpaceStar; Lit "("];
    lits "import" ++ [SpacePlus] ++ lits "os";
    lits "subprocess";
    lits "__import__";
    lits "file" ++ [SpaceStar; Lit "("];
    lits "open" ++ [SpaceStar; Lit "("];
    lits "socket";
    lits "urllib";
    lits "requests" ]%list.

Definition warning (f : SourceFile) : string :=
  "Potentially malicious code detected in " +:+ path f.

(** [scanForMaliciousCode]: it returns nothing and throws nothing; what
    it leaves is the [logger.warn] lines, one per file and matching
    pattern. *)
Definition scanForMaliciousCode (files : list SourceFile) : list string :=
  flat_map (fun f =>
    flat_map (fun p => if test p (content f) then [warning f] else [])
             maliciousPatterns) files.

(** How an [async] validator ends: it returns, or throws an [Error]. *)
Inductive Outcome :=
| Returns
| Throws (message : string).

Definition totalSize (files : list SourceFile) : N :=
  fold_left (fun sum f => (sum + N.of_nat (String.length (content f)))%N) files 0%N.

(** [validateCompilationRequest]: the outcome and the warnings logged. *)
Definition validateCompilationRequest (request : CompilationRequest) : Outcome * list string :=
  if String.eqb (workspaceId request) "" then (Throws "Workspace ID is required", [])
  else if String.eqb (language request) "" then (Throws "Language is required", [])
  else match sourceFiles request with
       | None | Some [] => (Throws "At least one source file is required", [])
       | Some files =>
           if (1024 * 1024 <? totalSize files)%N
           then (Throws "Source code size exceeds 1MB limit", [])
           else (Returns, scanForMaliciousCode files)
       end.

(** *** Storage *)

(** The optional columns written by [updateJobStatus]. *)
Record Updates := mkUpdates {
  u_stdout : option string;
  u_stderr : option string;
  u_exit_code : option Z;
  u_execution_time_ms : option Z;
  u_memory_used_kb : option Z
}.

(** A row of [compilation_jobs]. *)
Record Row := mkRow {
  id : string;
  user_id : string;
  workspace_id : string;
  r_language : string;
  source_files : list SourceFile;
  compiler_flags : option string;
  status : Status;
  stdout : option string;
  stderr : option string;
  exit_code : option Z;
  execution_time_ms : option Z;
  memory_used_kb : option Z;
  metadata : option string;
  created_at : Z;
  completed_at : option Z
}.

Record Share := mkShare {
  share_workspace : string;
  shared_with_user_id : string;
  permission_level : string
}.

(** The tables the service reads and writes, and the Redis cache
    ([compilation:${jobId}] to the cached row). *)
Record Store := mkStore {
  jobs : gmap string Row;
  workspaces : gmap string string;
  shares : list Share;
  cache : gmap string Row
}.

Definition withJobs (s : Store) (j : gmap string Row) (c : gmap string Row) : Store :=
  mkStore j (workspaces s) (shares s) c.

Definition pick {A} (new old : option A) : option A :=
  match new with
  | Some a => Some a
  | None => old
  end.

(** [updateJobStatus jobId status updates] at clock [now]: the row, if it
    exists, gets the status, the given columns and [completed_at], and is
    copied to the cache. *)
Definition updateJobStatus (s : Store) (jobId : string) (st : Status)
    (u : Updates) (now : Z) : Store :=
  match jobs s !! jobId with
  | Some r =>
      let r' := mkRow (id r) (user_id r) (workspace_id r) (r_language r)
                      (source_files r) (compiler_flags r) st
                      (pick (u_stdout u) (stdout r)) (pick (u_stderr u) (stderr r))
                      (pick (u_exit_code u) (exit_code r))
                      (pick (u_execution_time_ms u) (execution_time_ms r))
                      (pick (u_memory_used_kb u) (memory_used_kb r))
                      (metadata r) (created_at r) (Some now) in
      withJobs s (<[jobId := r']> (jobs s)) (<[jobId := r']> (cache s))
  | None => s
  end.

Definition updateJobMetadata (s : Store) (jobId : string) (token : string) : Store :=
  match jobs s !! jobId with
  | Some r =>
      let r' := mkRow (id r) (user_id r) (workspace_id r) (r_language r)
                      (source_files r) (compiler_flags r) (status r)
                      (stdout r) (stderr r) (exit_code r)
                      (execution_time_ms r) (memory_used_kb r)
                      (Some token) (created_at r) (completed_at r) in
      withJobs s (<[jobId := r']> (jobs s)) (cache s)
  | None => s
  end.

(** [createCompilationJob]: the inserted row; the columns not listed in
    the insert take the table defaults. *)
Definition createCompilationJob (jobId userId : string) (request : CompilationRequest)
    (now : Z) : Row :=
  mkRow jobId userId (workspaceId request) (language request)
        (match sourceFiles request with Some fs => fs | None => [] end)
        (compilerFlags request) Pending None None None None None None now None.

Definition checkWorkspacePermissions (s : Store) (userId wsId : string) : Outcome :=
  match workspaces s !! wsId with
  | None => Throws "Workspace not found"
  | Some owner =>
      if String.eqb owner userId
         || existsb (fun sh => String.eqb (share_workspace sh) wsId
                               && String.eqb (shared_with_user_id sh) userId
                               && String.eqb (permission_level sh) "write")
                    (shares s)
      then Returns
      else Throws "Access denied to workspace"
  end.

(** The Judge0 language ids of the service's [LANGUAGE_CONFIGS]. *)
Definition LANGUAGE_CONFIGS : list (string * Z) :=
  [ ("javascript", 63); ("typescript", 74); ("python", 71);
    ("cpp", 54); ("c", 50); ("java", 62) ].

(** [LANGUAGE_CONFIGS[request.language]]; [!langConfig] is false for an
    entry and for an inherited property alike. *)
Definition langConfig (language : string) : option (Js.Property Z) :=
  match Js.getProperty LANGUAGE_CONFIGS language with
  | Js.Undefined => None
  | found => Some found
  end.

Record CompilationResult := mkCompilationResult {
  c_jobId : string;
  c_status : Status;
  c_stdout : option string;
  c_stderr : option string;
  c_exitCode : option Z;
  c_executionTimeMs : option Z;
  c_memoryUsedKb : option Z;
  c_createdAt : Z;
  c_completedAt : option Z
}.

Definition formatCompilationResult (r : Row) : CompilationResult :=
  mkCompilationResult (id r) (status r) (stdout r) (stderr r) (exit_code r)
                      (execution_time_ms r) (memory_used_kb r)
                      (created_at r) (completed_at r).

(** *** Submission *)

Definition fileHeader (marker : string) (f : SourceFile) : string :=
  marker +:+ " File: " +:+ path f +:+ Js.newline +:+ content f.

Definition concatenated (marker : string) (files : list SourceFile) : string :=
  Js.join (Js.newline +:+ Js.newline) (List.map (fileHeader marker) files).

(** [prepareSourceCode sourceFiles language]: the one text sent to Judge0.
    [None] stands for the [TypeError] of [sourceFiles[0].content] on an
    empty list (the Java branch). *)
Definition prepareSourceCode (files : list SourceFile) (language : string) : option string :=
  match files with
  | [f] => Some (content f)
  | _ =>
      if String.eqb language "cpp" || String.eqb language "c"
      then Some (concatenated "//" files)
      else if String.eqb language "java" then
        match List.find (fun f => Js.includes "public static void main" (content f)
                                  || Js.includes "main" (Js.toLowerCase (path f))) files with
        | Some mainFile => Some (content mainFile)
        | None => match files with
                  | f :: _ => Some (content f)
                  | [] => None
                  end
        end
      else if String.eqb language "python" then Some (concatenated "#" files)
      else Some (concatenated "//" files)
  end.

(** What [submitCompilation] gives its caller: the pending result, or the
    rethrown error. *)
Inductive Submitted :=
| SubmitOk (r : CompilationResult) (judge0Token : string)
| SubmitThrows (message : string).

Definition errorUpdate (message : string) : Updates :=
  mkUpdates None (Some message) None None None.

(** [submitCompilation userId request]. [jobId] is the [uuidv4()] drawn
    first, [now] the clock, [judge0 source] the token returned by the POST
    of the prepared source to Judge0, or [None] when that request fails
    in any way. Every throw in the [try] block reaches the [catch], which
    calls [updateJobStatus] with ['error'] and rethrows. On success the
    polling of the token starts in the background. The database and
    Redis calls themselves are taken to succeed. *)
Definition submitCompilation (jobId : string) (now : Z) (judge0 : string -> option string)
    (s : Store) (userId : string) (request : CompilationRequest) : Submitted * Store :=
  let fail (s' : Store) (message : string) :=
    (SubmitThrows message, updateJobStatus s' jobId Error (errorUpdate message) now) in
  match fst (validateCompilationRequest request) with
  | Throws m => fail s m
  | Returns =>
      match checkWorkspacePermissions s userId (workspaceId request) with
      | Throws m => fail s m
      | Returns =>
          match langConfig (language request) with
          | None => fail s ("Unsupported language: " +:+ language request)
          | Some _ =>
              let row := createCompilationJob jobId userId request now in
              let s1 := withJobs s (<[jobId := row]> (jobs s)) (cache s) in
              match prepareSourceCode (source_files row) (language request) with
              | None =>
                  fail s1 "Cannot read properties of undefined (reading 'content')"
              | Some sourceCode =>
                  match judge0 sourceCode with
                  | None => fail s1 "Failed to submit compilation job"
                  | Some token =>
                      (SubmitOk (mkCompilationResult jobId Pending None None None None
                                                     None (created_at row) None) token,
                       updateJobMetadata s1 jobId token)
                  end
              end
          end
      end
  end.

(** *** Status *)

(** [getCompilationStatus userId jobId]. [healthy] is false when Redis or
    the database throws; the [catch] then returns [null]. *)
Definition getCompilationStatus (healthy : bool) (s : Store) (userId jobId : string)
    : option CompilationResult * Store :=
  if negb healthy then (None, s)
  else
    let fromDb :=
      match jobs s !! jobId with
      | Some job =>
          if String.eqb (user_id job) userId
          then (Some (formatCompilationResult job),
                withJobs s (jobs s) (<[jobId := job]> (cache s)))
          else (None, s)
      | None => (None, s)
      end in
    match cache s !! jobId with
    | Some cached =>
        if String.eqb (user_id cached) userId
        then (Some (formatCompilationResult cached), s)
        else fromDb
    | None => fromDb
    end.

(** *** Polling Judge0 *)

Definition isTerminal (st : Status) : bool :=
  match st with
  | Success | Error | Timeout => true
  | Pending | Running => false
  end.


(** The body of a Judge0 GET response. *)
Record Judge0Result := mkJudge0 {
  j_status_id : option Z;
  j_stdout : option string;
  j_stderr : option string;
  j_compile_output : option string;
  j_time : option Q;
  j_memory : option Z
}.

(** How the GET of one polling attempt ends. *)
Inductive PollOutcome :=
| GetFails
| GetReturns (r : Judge0Result).

(** What the polling does, in order: arm a timer, issue the GET of an
    attempt, write the job's final status. *)
Inductive PollStep :=
| Wait (ms : N)
| Get (attempt : nat)
| Update (st : Status) (u : Updates).

Definition maxAttempts : nat := 30.

(** [result.status?.id <= 2]: false when the id is missing. *)
Definition stillProcessing (r : Judge0Result) : bool :=
  match j_status_id r with
  | Some n => n <=? 2
  | None => false
  end.

(** The [updateJobStatus] call of the "processing complete" branch. *)
Definition completion (r : Judge0Result) : PollStep :=
  let ok := match j_status_id r with Some 3 => true | _ => false end in
  Update (if ok then Success else Error)
    (mkUpdates
       (Some (CompileRoutes.orEmpty (j_stdout r)))
       (Some (CompileRoutes.orEmpty (CompileRoutes.orElse (j_stderr r) (j_compile_output r))))
       (Some (if ok then 0
              else match j_status_id r with
                   | Some n => if n =? 0 then -1 else n
                   | None => -1
                   end))
       (Some (Js.mathRound (CompileRoutes.orZero (j_time r) * 1000)%Q))
       (Some (match j_memory r with Some m => m | None => 0 end))).

Definition timedOut : PollStep :=
  Update Timeout (errorUpdate "Compilation timed out after 30 seconds").

Definition pollFailed : PollStep :=
  Update Error (errorUpdate "Failed to get compilation results").

(** The closure [poll], called with the counter at [attempts]; [remote k]
    is what the [k]-th GET brings. Each call re-arms itself only while
    [attempts < maxAttempts], so [fuel = maxAttempts] calls are enough
    (see [poll_settles]). *)
Fixpoint poll (fuel : nat) (attempts : nat) (remote : nat -> PollOutcome) : list PollStep :=
  match fuel with
  | O => []
  | S fuel' =>
      let attempts := S attempts in
      Get attempts ::
      match remote attempts with
      | GetReturns r =>
          if stillProcessing r then
            if (attempts <? maxAttempts)%nat
            then Wait 1000 :: poll fuel' attempts remote
            else [timedOut]
          else [completion r]
      | GetFails =>
          if (attempts <? maxAttempts)%nat
          then Wait 1000 :: poll fuel' attempts remote
          else [pollFailed]
      end
  end.

(** [pollJudge0Results]: the first poll runs after one second. *)
Definition pollJudge0Results (remote : nat -> PollOutcome) : list PollStep :=
  Wait 1000 :: poll maxAttempts 0 remote.

(** The polling applied to the store; [now] is the clock at the update. *)
Definition applyStep (jobId : string) (now : Z) (s : Store) (step : PollStep) : Store :=
  match step with
  | Update st u => updateJobStatus s jobId st u now
  | _ => s
  end.

Definition runPoll (s : Store) (jobId : string) (remote : nat -> PollOutcome) (now : Z) : Store :=
  fold_left (applyStep jobId now) (pollJudge0Results remote) s.

(** A GET that brings no final result: it failed, or Judge0 is still
    processing. *)
Definition unsettled (o : PollOutcome) : bool :=
  match o with
  | GetFails => true
  | GetReturns r => stillProcessing r
  end.

(** What the attempt that reaches [maxAttempts] writes. *)
Definition atBound (o : PollOutcome) : PollStep :=
  match o with
  | GetFails => pollFailed
  | GetReturns r => if stillProcessing r then timedOut else completion r
  end.

Definition writesTerminal (step : PollStep) : Prop :=
  match step with
  | Update st _ => isTerminal st = true
  | _ => True
  end.

(** One round of the schedule: a one-second timer, then the GET. *)
Definition rounds (n : nat) : list PollStep :=
  flat_map (fun k => [Wait 1000; Get k]) (seq 1 n).

(** [completed_at] is set exactly when the status is terminal. *)
Definition rowWellTimed (r : Row) : Prop :=
  is_Some (completed_at r) <-> isTerminal (status r) = true.

(** Every stored and every cached row is well timed. *)
Definition storeWellTimed (s : Store) : Prop :=
  map_Forall (fun _ r => rowWellTimed r) (jobs s)
  /\ map_Forall (fun _ r => rowWellTimed r) (cache s).

(** *** Executing a compiled program *)

(** A row of [execution_jobs]. *)
Record ExecutionRow := mkExecutionRow {
  x_id : string;
  compilation_job_id : string;
  x_stdin : string;
  x_stdout : string;
  x_stderr : string;
  x_exit_code : Z;
  x_execution_time_ms : Z;
  x_memory_used_kb : Z;
  x_status : Status;
  x_completed_at : Z
}.

(** The object [executeProgram] returns. *)
Record ExecutionReply := mkExecutionReply {
  p_executionId : string;
  p_stdout : string;
  p_stderr : string;
  p_exitCode : Z;
  p_executionTimeMs : Z;
  p_memoryUsedKb : Z;
  p_status : Status
}.

Inductive Executed :=
| ExecutedOk (reply : ExecutionReply)
| ExecuteThrows (message : string).

(** [result.status?.id === 3 ? 0 : result.status?.id || -1]. *)
Definition exitCodeOf (r : Judge0Result) : Z :=
  match j_status_id r with
  | Some 3 => 0
  | Some n => if n =? 0 then -1 else n
  | None => -1
  end.

Definition statusOf (r : Judge0Result) : Status :=
  match j_status_id r with
  | Some 3 => Success
  | _ => Error
  end.

(** [executeProgram userId jobId input]. [judge0 source input] is how the
    waiting POST to Judge0 settles; [executionId] is the id the database
    gives the inserted row and [now] the clock. The row is appended to
    the [execution_jobs] table [executions]; [compilation_jobs] is only
    read. Every throw is logged and rethrown. *)
Definition executeProgram (executionId : string) (now : Z)
    (judge0 : string -> string -> CodeRunner.Settled Judge0Result)
    (s : Store) (executions : list ExecutionRow) (userId jobId input : string)
    : Executed * list ExecutionRow :=
  let found :=
    match jobs s !! jobId with
    | Some job =>
        if String.eqb (user_id job) userId
        then match status job with Success => Some job | _ => None end
        else None
    | None => None
    end in
  match found with
  | None => (ExecuteThrows "Successful compilation job not found", executions)
  | Some job =>
      match prepareSourceCode (source_files job) (r_language job) with
      | None =>
          (ExecuteThrows "Cannot read properties of undefined (reading 'content')",
           executions)
      | Some sourceCode =>
          match langConfig (r_language job) with
          | None =>
              (ExecuteThrows "Cannot read properties of undefined (reading 'id')",
               executions)
          | Some _ =>
              match judge0 sourceCode input with
              | CodeRunner.Rejected message => (ExecuteThrows message, executions)
              | CodeRunner.Fulfilled result =>
                  let out := CompileRoutes.orEmpty (j_stdout result) in
                  let err := CompileRoutes.orEmpty (j_stderr result) in
                  let ms := Js.mathRound (CompileRoutes.orZero (j_time result) * 1000)%Q in
                  let kb := match j_memory result with Some m => m | None => 0 end in
                  (ExecutedOk (mkExecutionReply executionId out err (exitCodeOf result)
                                                ms kb (statusOf result)),
                   executions ++
                   [mkExecutionRow executionId jobId input out err (exitCodeOf result)
                                   ms kb (statusOf result) now])
              end
          end
      end
  end.

Definition isUpdate (step : PollStep) : bool :=
  match step with
  | Update _ _ => true
  | _ => false
  end.

Definition isGet (step : PollStep) : bool :=
  match step with
  | Get _ => true
  | _ => false
  end.

End CompilationService.

(** ** Authentication of the routes *)

Module Auth.

(** What [authenticateToken] does with a request: answer with a status
    and an error, or set [req.user] and call [next()]. *)
Inductive AuthResult :=
| Denied (code : Z) (error : string)
| Authenticated (userId email : string).

(** The user id read from a token that starts with [mock-jwt-token].
    [numberIsNaN s] stands for [isNaN(Number(s))]. *)
Definition userIdOfToken (numberIsNaN : string -> bool) (token : string) : string :=
  let tokenParts := Js.split "-" token in
  if (5 <=? length tokenParts)%nat then
    let timestampPart := List.last tokenParts "" in
    let userIdParts := Js.sliceToLast 3 tokenParts in
    if negb (numberIsNaN timestampPart) && (0 <? length userIdParts)%nat
    then Js.join "-" userIdParts
    else "1"
  else "1".

(** [authenticateToken]; [authorization] is
    [req.headers['authorization']]. *)
Definition authenticateToken (numberIsNaN : string -> bool) (authorization : option string)
    : AuthResult :=
  let token :=
    match authorization with
    | Some authHeader =>
        if String.eqb authHeader "" then None
        else match Js.split " " authHeader with
             | _ :: t :: _ => if String.eqb t "" then None else Some t
             | _ => None
             end
    | None => None
    end in
  match token with
  | None => Denied 401 "Access token required"
  | Some t =>
      if Js.startsWith "mock-jwt-token" t
      then Authenticated (userIdOfToken numberIsNaN t) "demo@example.com"
      else Denied 403 "Invalid or expired token"
  end.

(** The access tokens minted by the auth routes: by the Google callbacks
    ([`mock-jwt-token-${googleUser.id}-${Date.now()}`]), by the GitHub
    callbacks and the refresh route (['mock-jwt-token-' + Date.now()]),
    and by the demo login, whose user id is ['demo-user-' + Date.now()]. *)
Definition googleJwt (googleUserId : string) (now : N) : string :=
  "mock-jwt-token-" +:+ googleUserId +:+ "-" +:+ Js.showN now.

Definition plainJwt (now : N) : string := "mock-jwt-token-" +:+ Js.showN now.

Definition demoJwt (idClock now : N) : string :=
  "demo-jwt-token-" +:+ ("demo-user-" +:+ Js.showN idClock) +:+ "-" +:+ Js.showN now.

Definition bearer (token : string) : option string := Some ("Bearer " +:+ token).

(** *** OAuth states *)

Record StateData := mkState { provider : string; timestamp : Z }.

(** What both [/oauth/.../url] handlers do to [oauthStates]: store the
    new state, named after the clock, then drop every state older than
    ten minutes. [stateClock] and [timestamp] are the two [Date.now()]
    readings. *)
Definition issueState (provider : string) (stateClock : N) (timestamp : Z)
    (oauthStates : gmap string StateData) : string * gmap string StateData :=
  let state := Js.showN stateClock in
  (state,
   filter (fun kv => ~ (10 * 60 * 1000 < timestamp - Auth.timestamp (snd kv)))
          (<[state := mkState provider timestamp]> oauthStates)).

Inductive CallbackResponse :=
| CallbackError (code : Z) (error : string)
| CallbackTokens (accessToken refreshToken : string).

(** [POST /oauth/github/callback] with [req.body.state]; [now1] and
    [now2] are the clock readings of the two tokens. *)
Definition githubCallback (now1 now2 : N) (oauthStates : gmap string StateData)
    (state : string) : CallbackResponse * gmap string StateData :=
  match oauthStates !! state with
  | Some stateData =>
      if String.eqb (provider stateData) "github"
      then (CallbackTokens (plainJwt now1) ("mock-refresh-token-" +:+ Js.showN now2),
            delete state oauthStates)
      else (CallbackError 400 "Invalid state parameter", oauthStates)
  | None => (CallbackError 400 "Invalid state parameter", oauthStates)
  end.

End Auth.

(** ** The rate limiter in front of all routes *)

Module RateLimiter.

Record Window := mkWindow { count : Z; resetTime : Z }.

Inductive Decision :=
| Next
| TooManyRequests (retryAfter : Z).

Definition windowMs : Z := 60 * 1000.
Definition maxRequests : Z := 100.

(** [req.ip || req.socket?.remoteAddress || 'unknown']. *)
Definition clientKey (ip remoteAddress : option string) : string :=
  match CompileRoutes.truthy ip with
  | Some a => a
  | None => match CompileRoutes.truthy remoteAddress with
            | Some a => a
            | None => "unknown"
            end
  end.

(** [rateLimiter] for the client [ip] at clock [now], on the [requests]
    map. *)
Definition rateLimiter (requests : gmap string Window) (ip : string) (now : Z)
    : Decision * gmap string Window :=
  match requests !! ip with
  | Some userRequests =>
      if resetTime userRequests <? now
      then (Next, <[ip := mkWindow 1 (now + windowMs)]> requests)
      else if maxRequests <=? count userRequests
      then (TooManyRequests (Js.ceilDiv1000 (resetTime userRequests - now)), requests)
      else (Next, <[ip := mkWindow (count userRequests + 1) (resetTime userRequests)]> requests)
  | None => (Next, <[ip := mkWindow 1 (now + windowMs)]> requests)
  end.

(** The periodic cleanup at clock [now]. *)
Definition cleanup (now : Z) (requests : gmap string Window) : gmap string Window :=
  filter (fun kv => ~ (resetTime (snd kv) < now)) requests.

(** A run of requests, each with its client and clock: the decisions in
    order and the final map. *)
Fixpoint serve (requests : gmap string Window) (calls : list (string * Z))
    : list (string * Decision) * gmap string Window :=
  match calls with
  | [] => ([], requests)
  | (ip, now) :: rest =>
      let '(d, requests') := rateLimiter requests ip now in
      let '(ds, final) := serve requests' rest in
      ((ip, d) :: ds, final)
  end.

(** The number of requests of [ip] in a run. *)
Definition callsOf (ip : string) (calls : list (string * Z)) : nat :=
  length (List.filter (fun c => String.eqb (fst c) ip) calls).

(** The requests of [ip] that were let through. *)
Definition passed (ip : string) (ds : list (string * Decision)) : nat :=
  length (List.filter (fun d => String.eqb (fst d) ip
                                && match snd d with Next => true | _ => false end) ds).

End RateLimiter.

(** ** Facts about strings *)

Module StringFacts.

Lemma app_nil_l (t : string) : "" +:+ t = t.
Proof. reflexivity. Qed.

Lemma app_cons (c : ascii) (s t : string) : String c s +:+ t = String c (s +:+ t).
Proof. reflexivity. Qed.

Lemma app_nil_r (s : string) : s +:+ "" = s.
Proof. induction s as [|c s IH]; [reflexivity|]. rewrite app_cons, IH. reflexivity. Qed.

Lemma app_assoc (s t u : string) : (s +:+ t) +:+ u = s +:+ (t +:+ u).
Proof.
  induction s as [|c s IH]; [reflexivity|].
  rewrite !app_cons, IH. reflexivity.
Qed.

Lemma length_app (s t : string) :
  String.length (s +:+ t) = (String.length s + String.length t)%nat.
Proof.
  induction s as [|c s IH]; [reflexivity|].
  rewrite app_cons. cbn [String.length]. rewrite IH. reflexivity.
Qed.

Lemma list_of_app (s t : string) :
  list_ascii_of_string (s +:+ t) = (list_ascii_of_string s ++ list_ascii_of_string t)%list.
Proof.
  induction s as [|c s IH]; [reflexivity|].
  rewrite app_cons. cbn [list_ascii_of_string]. rewrite IH. reflexivity.
Qed.

Lemma app_inv_tail (s1 s2 t : string) : s1 +:+ t = s2 +:+ t -> s1 = s2.
Proof.
  intros H. apply (f_equal list_ascii_of_string) in H.
  rewrite !list_of_app in H. apply List.app_inv_tail in H.
  rewrite <- (string_of_list_ascii_of_string s1), <- (string_of_list_ascii_of_string s2).
  rewrite H. reflexivity.
Qed.

Lemma app_inv_head (s t1 t2 : string) : s +:+ t1 = s +:+ t2 -> t1 = t2.
Proof.
  induction s as [|c s IH]; intros H; [exact H|].
  rewrite !app_cons in H. injection H as H. auto.
Qed.

Lemma showN_inj (n m : N) : Js.showN n = Js.showN m -> n = m.
Proof.
  unfold Js.showN. intros H.
  apply (f_equal NilEmpty.uint_of_string) in H.
  rewrite !NilEmpty.usu in H. injection H as H.
  apply DecimalN.Unsigned.to_uint_inj. exact H.
Qed.

End StringFacts.

(** ** The local executor: timeout, output capture, temp files, dispatch *)

Module RunnerFacts.
Import CodeRunner.

Section Events.
Variables (timeoutMs : N) (startTime : Z).

Lemma runEvents_app (st : ProcState) (evs1 evs2 : list ProcEvent) :
  runEvents timeoutMs startTime st (evs1 ++ evs2) =
  runEvents timeoutMs startTime (runEvents timeoutMs startTime st evs1) evs2.
Proof. unfold runEvents. apply fold_left_app. Qed.

Lemma runEvents_cons (st : ProcState) (ev : ProcEvent) (evs : list ProcEvent) :
  runEvents timeoutMs startTime st (ev :: evs) =
  runEvents timeoutMs startTime (handle timeoutMs startTime st ev) evs.
Proof. reflexivity. Qed.

(** Data callbacks only append to the two buffers. *)
Lemma runEvents_data (evs : list ProcEvent) :
  forall st, forallb isData evs = true ->
  runEvents timeoutMs startTime st evs =
  mkProc (outBuf st +:+ stdoutOf evs) (errBuf st +:+ stderrOf evs)
         (killed st) (timerPending st) (resolved st) (actions st).
Proof.
  induction evs as [|ev evs IH]; intros st Hd.
  - cbn [runEvents fold_left stdoutOf stderrOf].
    rewrite !StringFacts.app_nil_r. destruct st; reflexivity.
  - cbn [forallb] in Hd. apply andb_prop in Hd as [Hev Hd].
    rewrite runEvents_cons, (IH _ Hd).
    destruct ev; try discriminate Hev; cbn [handle stdoutOf stderrOf outBuf errBuf
      killed timerPending resolved actions];
      rewrite ?StringFacts.app_assoc; reflexivity.
Qed.

(** A resolved promise keeps its value. *)
Lemma runEvents_resolved (evs : list ProcEvent) :
  forall st r, resolved st = Some r ->
  resolved (runEvents timeoutMs startTime st evs) = Some r.
Proof.
  induction evs as [|ev evs IH]; intros st r Hr; [exact Hr|].
  rewrite runEvents_cons. apply IH.
  destruct ev; cbn [handle resolved]; try exact Hr.
  - destruct (timerPending st); exact Hr.
  - rewrite Hr. reflexivity.
  - rewrite Hr. reflexivity.
Qed.

(** Once the timer has fired or was cleared, no further signal is sent. *)
Lemma runEvents_no_more_kills (evs : list ProcEvent) :
  forall st, timerPending st = false ->
  killsOf (actions (runEvents timeoutMs startTime st evs)) = killsOf (actions st).
Proof.
  induction evs as [|ev evs IH]; intros st Hp; [reflexivity|].
  rewrite runEvents_cons.
  destruct ev; cbn [handle].
  - rewrite IH; [reflexivity | exact Hp].
  - rewrite IH; [reflexivity | exact Hp].
  - rewrite Hp. apply IH, Hp.
  - rewrite IH; [|reflexivity]. cbn [actions]. unfold killsOf.
    rewrite List.filter_app. cbn. apply app_nil_r.
  - rewrite IH; [|reflexivity]. cbn [actions]. unfold killsOf.
    rewrite List.filter_app. cbn. apply app_nil_r.
Qed.

End Events.

Lemma startProcess_kills (command : string) (args : list string) (options : ExecutionOptions) :
  killsOf (actions (startProcess command args options)) = [].
Proof.
  unfold startProcess. cbn [actions].
  destruct (stdin options) as [s|]; [destruct (String.eqb s "")|]; reflexivity.
Qed.



(** The size of the captured stdout is the total size of the chunks. *)
Lemma stdoutOf_length (evs : list ProcEvent) :
  String.length (stdoutOf evs) =
  list_sum (List.map (fun ev => match ev with
                                | StdoutData d => String.length d
                                | _ => 0%nat
                                end) evs).
Proof.
  induction evs as [|ev evs IH]; [reflexivity|].
  destruct ev; cbn [stdoutOf List.map list_sum]; rewrite ?StringFacts.length_app, IH;
    reflexivity.
Qed.

(** A child that closes by itself: whatever it wrote before is returned
    whole, the status follows the exit code alone, and nothing was
    signalled. *)
Lemma run_data_then_close (command : string) (args : list string) (code : string)
    (options : ExecutionOptions) (startTime : Z) (evs : list ProcEvent)
    (c : option Z) (t : Z) :
  forallb isData evs = true ->
  executeWithProcess command args code options startTime (evs ++ [Close c t]) =
  (Some (mkResult (match c with Some 0 => ExSuccess | _ => ExError end)
                  (stdoutOf evs) (stderrOf evs)
                  (match c with Some n => n | None => 0 end)
                  (t - startTime) None),
   actions (startProcess command args options) ++ [ClearTimeout]).
Proof.
  intros Hd. unfold executeWithProcess.
  rewrite runEvents_app, (runEvents_data _ _ _ _ Hd).
  reflexivity.
Qed.




(** *** Temp-file naming *)

(** Executions of one language that start at different milliseconds get
    different temp files. *)
Lemma tempFile_inj (tmpdir prefix ext : string) (now1 now2 : N) :
  tempFile tmpdir prefix ext now1 = tempFile tmpdir prefix ext now2 -> now1 = now2.
Proof.
  unfold tempFile, pathJoin. intros H.
  do 4 apply StringFacts.app_inv_head in H.
  apply StringFacts.app_inv_tail in H.
  apply StringFacts.showN_inj. exact H.
Qed.

(** Once the interpreter has closed, [executePython] has removed its
    temp file, whatever the result. *)
Lemma executePython_releases (tmpdir code : string) (options : ExecutionOptions)
    (now : N) (startTime : Z) (writable : bool) (evs : list ProcEvent)
    (fs : gmap string string) (r : ExecutionResult) :
  fst (executePython tmpdir code options now startTime writable evs fs) = Some r ->
  snd (executePython tmpdir code options now startTime writable evs fs)
    !! tempFile tmpdir "python" ".py" now = None.
Proof.
  unfold executePython, pythonMaterialize, unlinkSync.
  destruct writable.
  - destruct (fst (executeWithProcess _ _ _ _ _ _)); [|discriminate].
    intros _. apply lookup_delete_eq.
  - intros _. apply lookup_delete_eq.
Qed.

(** *** Dispatch *)

Example runCode_dispatches_aliases :
  forall exec code options,
    runCode exec "PY" code options = exec ExecPython code options
    /\ runCode exec "python3" code options = exec ExecPython code options
    /\ runCode exec "Bash" code options = exec ExecShell code options.
Proof. intros. repeat split. Qed.

Lemma switchOn_unlisted (table : list (string * Executor)) (l : string) :
  ~ In l (List.map fst table) -> switchOn table l = None.
Proof.
  induction table as [|[label e] rest IH]; intros Hn; [reflexivity|].
  cbn [switchOn]. destruct (String.eqb_spec l label) as [->|Hne].
  - exfalso. apply Hn. left. reflexivity.
  - apply IH. intros Hin. apply Hn. right. exact Hin.
Qed.

Lemma prefix_short (n : nat) (s : string) :
  (String.length s <= n)%nat -> Js.prefix n s = s.
Proof.
  unfold Js.prefix. revert n.
  induction s as [|c s IH]; intros [|n] Hl; cbn in *; try reflexivity; try lia.
  rewrite IH by lia. reflexivity.
Qed.

(** Code of at most 500 characters is previewed whole. *)
Lemma codePreview_short (code : string) :
  (String.length code <= 500)%nat -> codePreview code = code.
Proof.
  intros Hl. unfold codePreview.
  rewrite prefix_short by exact Hl.
  destruct (Nat.ltb_spec 500 (String.length code)); [lia|].
  apply StringFacts.app_nil_r.
Qed.

(** *** The claims on the local executor *)




(** C7 (as amended). Captured output is not bounded: every chunk the
    child writes is appended whole, so the captured stdout is as long as
    all chunks together; when the child then closes by itself the result
    holds the complete output, its status follows the exit code alone,
    and no signal was sent on account of the output. *)
Theorem output_captured_whole
    (command : string) (args : list string) (code : string) (options : ExecutionOptions)
    (startTime : Z) (evs : list ProcEvent) (c : option Z) (t : Z) :
  forallb isData evs = true ->
  let run := executeWithProcess command args code options startTime (evs ++ [Close c t]) in
  fst run = Some (mkResult (match c with Some 0 => ExSuccess | _ => ExError end)
                           (stdoutOf evs) (stderrOf evs)
                           (match c with Some n => n | None => 0 end)
                           (t - startTime) None)
  /\ killsOf (snd run) = []
  /\ String.length (stdoutOf evs) =
     list_sum (List.map (fun ev => match ev with
                                   | StdoutData d => String.length d
                                   | _ => 0%nat
                                   end) evs).
Proof.
  intros Hd run. subst run.
  rewrite (run_data_then_close _ _ _ _ _ _ _ _ Hd). cbn [fst snd].
  split; [reflexivity|]. split; [|apply stdoutOf_length].
  unfold killsOf. rewrite List.filter_app.
  fold (killsOf (actions (startProcess command args options))).
  rewrite startProcess_kills. reflexivity.
Qed.

Lemma output_captured_whole_witness :
  let run := executeWithProcess "python3" ["main.py"] "print('x' * 100)"
               (mkOptions None None None) 0
               ([StdoutData (Js.repeat "x" 100); StderrData "warn"] ++ [Close (Some 0) 40]) in
  fst run = Some (mkResult ExSuccess (Js.repeat "x" 100 +:+ "") ("warn" +:+ "") 0 40 None)
  /\ killsOf (snd run) = []
  /\ String.length (Js.repeat "x" 100 +:+ "") = 100%nat.
Proof.
  exact (output_captured_whole "python3" ["main.py"] "print('x' * 100)"
           (mkOptions None None None) 0
           [StdoutData (Js.repeat "x" 100); StderrData "warn"] (Some 0) 40 eq_refl).
Defined.

Lemma length_repeat (c : ascii) (n : nat) : String.length (Js.repeat c n) = n.
Proof. induction n as [|n IH]; cbn; [reflexivity | rewrite IH; reflexivity]. Qed.

(** C7, as stated, fails: no size bounds the captured stdout of
    successful runs. *)
Lemma captured_output_has_no_bound :
  ~ exists maxSize : nat,
      forall (evs : list ProcEvent) (r : ExecutionResult),
        fst (executeWithProcess "python3" ["main.py"] "" (mkOptions None None None) 0 evs)
          = Some r ->
        (String.length (stdout r) <= maxSize)%nat \/ status r = ExError.
Proof.
  intros [maxSize H].
  specialize (H ([StdoutData (Js.repeat "a" (S maxSize))] ++ [Close (Some 0) 1])).
  rewrite run_data_then_close in H by reflexivity.
  destruct (H _ eq_refl) as [Hlen|Hst]; [|discriminate Hst].
  cbn [stdout stdoutOf] in Hlen.
  rewrite StringFacts.app_nil_r, length_repeat in Hlen. lia.
Qed.

(** C8, evaluated where it fails. Two Python executions that read the
    clock in the same millisecond are given the same temp file, whatever
    their code: the second write replaces the first job's source, and the
    first job's cleanup removes the file the second job runs. *)
Theorem python_tempfile_collision
    (tmpdir codeA codeB : string) (now : N) (fs : gmap string string) :
  let a := pythonMaterialize tmpdir codeA now true fs in
  let b := pythonMaterialize tmpdir codeB now true (snd a) in
  fst a = fst b
  /\ snd b !! fst a = Some codeB
  /\ unlinkSync (snd b) (fst a) !! fst b = None.
Proof.
  cbv zeta. unfold pythonMaterialize, writeFileSync, unlinkSync. cbn [fst snd].
  split; [reflexivity|]. split.
  - apply lookup_insert_eq.
  - apply lookup_delete_eq.
Qed.

(** C9. A language outside the dispatcher's [case] labels is not run at
    all: whatever the executors would do, [runCode] fulfils with status
    [success], exit code 0, empty stderr and the canned text ending in
    the code preview. *)
Theorem runCode_unhandled_language
    (exec : Executor -> string -> ExecutionOptions -> Settled ExecutionResult)
    (language code : string) (options : ExecutionOptions) :
  ~ In (Js.toLowerCase language) (List.map fst dispatchTable) ->
  runCode exec language code options =
  Fulfilled (mkResult ExSuccess
    ("Code syntax for " +:+ language +:+ " appears valid!" +:+ Js.newline +:+ Js.newline
     +:+ "📝 For full " +:+ language
     +:+ " compilation, the Judge0 API or a local compiler is required."
     +:+ Js.newline +:+ Js.newline
     +:+ "Code preview:" +:+ Js.newline
     +:+ Js.prefix 500 code +:+ (if (500 <? String.length code)%nat then "..." else ""))
    "" 0 0 None).
Proof.
  intros Hn. unfold runCode.
  rewrite (switchOn_unlisted _ _ Hn). reflexivity.
Qed.

Lemma runCode_unhandled_language_witness :
  runCode (fun _ _ _ => Rejected "no executor is called") "Rust" "fn main() {}"
          (mkOptions None None None) =
  Fulfilled (mkResult ExSuccess
    ("Code syntax for Rust appears valid!" +:+ Js.newline +:+ Js.newline
     +:+ "📝 For full Rust compilation, the Judge0 API or a local compiler is required."
     +:+ Js.newline +:+ Js.newline
     +:+ "Code preview:" +:+ Js.newline +:+ "fn main() {}")
    "" 0 0 None).
Proof.
  refine (runCode_unhandled_language (fun _ _ _ => Rejected "no executor is called")
            "Rust" "fn main() {}" (mkOptions None None None) _).
  vm_compute; intuition discriminate.
Defined.

(** The compiled languages named by the routes are all outside the
    dispatcher's labels. *)
Lemma compiled_languages_unhandled :
  Forall (fun language => switchOn dispatchTable (Js.toLowerCase language) = None)
         ["c"; "cpp"; "java"; "go"; "rust"].
Proof. repeat constructor. Qed.

End RunnerFacts.

(** ** The compile routes: fallback and job lifecycle *)

Module RoutesFacts.
Import CompileRoutes.

Example judge0_ids :
  getJudge0LanguageId "python" = Some (IdNumber 71)
  /\ getJudge0LanguageId "shell" = None
  /\ getJudge0LanguageId "toString" = Some IdInherited.
Proof. repeat split. Qed.

Example language_configs :
  hasLangConfig "zig" = true /\ hasLangConfig "cobol" = false
  /\ hasLangConfig "Python" = false.
Proof. repeat split. Qed.

Lemma executeLocally_terminal
    (exec : CodeRunner.Executor -> string -> CodeRunner.ExecutionOptions
            -> CodeRunner.Settled CodeRunner.ExecutionResult)
    (language sourceCode : string) (stdin : option string) :
  isTerminal (l_status (executeLocally exec language sourceCode stdin)) = true.
Proof.
  unfold executeLocally.
  destruct (CodeRunner.runCode exec language sourceCode _) as [r|msg]; cbn [l_status].
  - destruct (CodeRunner.status r); reflexivity.
  - reflexivity.
Qed.

Lemma some_is_Some {A} (a : A) : is_Some (Some a).
Proof. exists a. reflexivity. Qed.

Lemma localFallback_wellTimed (env : Env) (job : Job) : wellTimed (localFallback env job).
Proof.
  unfold wellTimed, localFallback, assignLocal. cbn [completedAt status].
  split; intros _; [apply executeLocally_terminal | apply some_is_Some].
Qed.

Lemma assignRemote_wellTimed (env : Env) (job : Job) (r : SubmissionResult) :
  wellTimed (assignRemote env job r).
Proof.
  unfold wellTimed, assignRemote. cbn [completedAt status].
  split; intros _; [|apply some_is_Some].
  destruct (status_id r) as [[|[[|[]|]|[]|]|]|]; reflexivity.
Qed.

(** Whatever the outside world answers, [processCompilation] leaves the
    job terminal with its completion time set. *)
Lemma finishCompilation_wellTimed (env : Env) (job : Job) :
  wellTimed (finishCompilation env job).
Proof.
  unfold finishCompilation.
  destruct (getJudge0LanguageId (language job)); [|apply localFallback_wellTimed].
  destruct (fetchOutcome env) as [m|[] [|r]];
    auto using localFallback_wellTimed, assignRemote_wellTimed.
Qed.

Lemma finishCompilation_terminal (env : Env) (job : Job) :
  isTerminal (status (finishCompilation env job)) = true.
Proof.
  apply (finishCompilation_wellTimed env job).
  unfold finishCompilation.
  destruct (getJudge0LanguageId (language job)); [|apply some_is_Some].
  destruct (fetchOutcome env) as [m|[] [|r]]; apply some_is_Some.
Qed.


(** A response that is [ok] but whose body is not JSON falls back too. *)
Lemma finishCompilation_malformed (env : Env) (job : Job) :
  fetchOutcome env = FetchResponse true JsonThrows ->
  finishCompilation env job = localFallback env job.
Proof.
  unfold finishCompilation. intros ->.
  destruct (getJudge0LanguageId (language job)); reflexivity.
Qed.

Lemma processCompilation_known (env : Env) (jobs : gmap string Job) (jobId : string)
    (job : Job) :
  jobs !! jobId = Some job ->
  processCompilation env jobs jobId =
  [ <[jobId := setStatus job Running]> jobs;
    <[jobId := finishCompilation env (setStatus job Running)]> jobs ].
Proof. unfold processCompilation. intros ->. reflexivity. Qed.



Lemma newJob_wellTimed (jobId user workspaceId language : string)
    (files : list SourceFile) (opts : option CompilerOptions) (createdAt : Z) :
  wellTimed (newJob jobId user workspaceId language files opts createdAt).
Proof. split; [intros [x Hx]; discriminate Hx | discriminate]. Qed.

Lemma running_wellTimed (job : Job) :
  completedAt job = None -> wellTimed (setStatus job Running).
Proof.
  intros Hc. unfold wellTimed. cbn [setStatus completedAt status]. rewrite Hc.
  split; [intros [x Hx]; discriminate Hx | discriminate].
Qed.

(** The store from the moment the submit handler has put the pending job
    in it, through [processCompilation]: every job in it is well timed at
    every point. *)
Lemma route_lifecycle_wellTimed (env : Env) (jobs : gmap string Job)
    (jobId user workspaceId language : string)
    (files : list SourceFile) (opts : option CompilerOptions) (createdAt : Z) :
  jobsWellTimed jobs ->
  let created := <[jobId := newJob jobId user workspaceId language files opts createdAt]> jobs in
  Forall jobsWellTimed (created :: processCompilation env created jobId).
Proof.
  intros Hjobs created.
  assert (Hcreated : jobsWellTimed created)
    by (apply map_Forall_insert_2; [apply newJob_wellTimed | exact Hjobs]).
  rewrite (processCompilation_known env created jobId _ (lookup_insert_eq _ _ _)).
  constructor; [exact Hcreated|].
  constructor.
  { apply map_Forall_insert_2; [|exact Hcreated]. apply running_wellTimed. reflexivity. }
  constructor; [|constructor].
  apply map_Forall_insert_2; [|exact Hcreated]. apply finishCompilation_wellTimed.
Qed.

(** The store the submit handler returns for an accepted request is the
    first store of [processCompilation] on the map holding the new job. *)
Lemma submitHandler_store (env : Env) (jobId : string) (createdAt : Z)
    (jobs : gmap string Job) (user workspaceId language : string)
    (files : list SourceFile) (opts : option CompilerOptions) :
  workspaceId <> "" -> language <> "" -> hasLangConfig language = true ->
  let created := <[jobId := newJob jobId user workspaceId language files opts createdAt]> jobs in
  Some (snd (submitHandler jobId createdAt jobs user
               (mkBody (Some workspaceId) (Some language) (SfArray files) opts)))
  = head (processCompilation env created jobId).
Proof.
  intros Hw Hl Hcfg created. unfold submitHandler. cbn [b_workspaceId b_language
    b_sourceFiles b_compilerOptions truthy].
  destruct (String.eqb_spec workspaceId ""); [contradiction|].
  destruct (String.eqb_spec language ""); [contradiction|].
  rewrite Hcfg. cbn [snd].
  rewrite (processCompilation_known env created jobId _ (lookup_insert_eq _ _ _)).
  reflexivity.
Qed.

(** [GET /:jobId] answers a job of another user exactly as a missing one. *)
Lemma statusHandler_absent (jobs : gmap string Job) (user jobId : string) :
  jobs !! jobId = None ->
  statusHandler jobs user jobId = ErrorResponse 404 "Compilation job not found".
Proof. unfold statusHandler. intros ->. reflexivity. Qed.

Lemma statusHandler_foreign (jobs : gmap string Job) (user jobId : string) (job : Job) :
  jobs !! jobId = Some job -> userId job <> user ->
  statusHandler jobs user jobId = ErrorResponse 404 "Compilation job not found".
Proof.
  unfold statusHandler. intros -> Hne.
  destruct (String.eqb_spec (userId job) user); [contradiction | reflexivity].
Qed.

(** The submit handler stores a job for an empty [sourceFiles] array. *)
Lemma submitHandler_empty_array (jobId : string) (createdAt : Z) (jobs : gmap string Job)
    (user : string) (opts : option CompilerOptions) :
  submitHandler jobId createdAt jobs user
    (mkBody (Some "ws-1") (Some "python") (SfArray []) opts) =
  (Accepted jobId Pending "Compilation job submitted",
   <[jobId := setStatus (newJob jobId user "ws-1" "python" [] opts createdAt) Running]>
     (<[jobId := newJob jobId user "ws-1" "python" [] opts createdAt]> jobs)).
Proof. reflexivity. Qed.

End RoutesFacts.

(** ** The compilation service: validation, storage, polling *)

Module ServiceFacts.
Import CompilationService.

(** *** Validation and the scan *)

Example scan_system_call :
  test (lits "system" ++ [SpaceStar; Lit "("]) "os.System  ('ls')" = true.
Proof. reflexivity. Qed.

Example scan_import_needs_space :
  test (lits "import" ++ [SpacePlus] ++ lits "os") "importos" = false
  /\ test (lits "import" ++ [SpacePlus] ++ lits "os") ("IMPORT " +:+ Js.newline +:+ "OS") = true.
Proof. split; reflexivity. Qed.

Example scan_eval_needs_paren :
  test (lits "eval" ++ [SpaceStar; Lit "("]) "evaluate x" = false
  /\ test (lits "eval" ++ [SpaceStar; Lit "("]) "x = eval (y)" = true.
Proof. split; reflexivity. Qed.

Example scan_clean_file :
  scanForMaliciousCode [mkFile "main.py" "print('Hello, World!')"] = [].
Proof. reflexivity. Qed.

Lemma totalSize_from (files : list SourceFile) (acc : N) :
  fold_left (fun sum f => (sum + N.of_nat (String.length (content f)))%N) files acc =
  (acc + N.of_nat (list_sum (List.map (fun f => String.length (content f)) files)))%N.
Proof.
  revert acc. induction files as [|f files IH]; intros acc; cbn [fold_left List.map].
  - cbn. lia.
  - rewrite IH.
    change (list_sum (?a :: ?l)) with (a + list_sum l)%nat.
    rewrite Nat2N.inj_add. lia.
Qed.

(** The size check sees the lengths of the contents only. *)
Lemma totalSize_lengths (files1 files2 : list SourceFile) :
  List.map (fun f => String.length (content f)) files1 =
  List.map (fun f => String.length (content f)) files2 ->
  totalSize files1 = totalSize files2.
Proof. unfold totalSize. intros H. rewrite !totalSize_from, H. reflexivity. Qed.

(** A request that passes the four checks is accepted whatever the scan
    finds; the findings are logged and nothing else. *)
Lemma validate_accepts (request : CompilationRequest) (f : SourceFile)
    (files : list SourceFile) :
  workspaceId request <> "" -> language request <> "" ->
  sourceFiles request = Some (f :: files) ->
  (totalSize (f :: files) <= 1024 * 1024)%N ->
  validateCompilationRequest request = (Returns, scanForMaliciousCode (f :: files)).
Proof.
  intros Hw Hl Hs Hsize. unfold validateCompilationRequest.
  destruct (String.eqb_spec (workspaceId request) ""); [contradiction|].
  destruct (String.eqb_spec (language request) ""); [contradiction|].
  rewrite Hs.
  destruct (N.ltb_spec (1024 * 1024) (totalSize (f :: files))); [lia | reflexivity].
Qed.

Lemma validate_rejects_empty (request : CompilationRequest) :
  workspaceId request <> "" -> language request <> "" ->
  sourceFiles request = Some [] ->
  validateCompilationRequest request = (Throws "At least one source file is required", []).
Proof.
  intros Hw Hl Hs. unfold validateCompilationRequest.
  destruct (String.eqb_spec (workspaceId request) ""); [contradiction|].
  destruct (String.eqb_spec (language request) ""); [contradiction|].
  rewrite Hs. reflexivity.
Qed.

(** C10. The malicious-code scan cannot change the outcome of the
    validation: two requests that agree on workspace id, language and the
    sizes of their files are accepted or rejected alike (with the same
    error), whatever their contents match. *)
Theorem scan_does_not_affect_validation (r1 r2 : CompilationRequest) :
  workspaceId r1 = workspaceId r2 ->
  language r1 = language r2 ->
  option_map (List.map (fun f => String.length (content f))) (sourceFiles r1) =
  option_map (List.map (fun f => String.length (content f))) (sourceFiles r2) ->
  fst (validateCompilationRequest r1) = fst (validateCompilationRequest r2).
Proof.
  intros Hw Hl Hs. unfold validateCompilationRequest. rewrite <- Hw, <- Hl.
  destruct (String.eqb (workspaceId r1) ""); [reflexivity|].
  destruct (String.eqb (language r1) ""); [reflexivity|].
  destruct (sourceFiles r1) as [files1|], (sourceFiles r2) as [files2|];
    cbn [option_map] in Hs; try discriminate Hs; [|reflexivity].
  injection Hs as Hs.
  destruct files1 as [|f1 files1], files2 as [|f2 files2];
    try discriminate Hs; [reflexivity|].
  rewrite (totalSize_lengths _ _ Hs).
  destruct (1024 * 1024 <? totalSize (f2 :: files2))%N; reflexivity.
Qed.

Lemma scan_does_not_affect_validation_witness :
  let flagged := mkRequest "ws-1" "python"
                   (Some [mkFile "main.py" "import os;os.system('id')"]) None None in
  let plain := mkRequest "ws-1" "python"
                   (Some [mkFile "main.py" "print('Hello, World!!!!')"]) None None in
  fst (validateCompilationRequest flagged) = fst (validateCompilationRequest plain)
  /\ validateCompilationRequest flagged =
     (Returns, [ "Potentially malicious code detected in main.py";
                 "Potentially malicious code detected in main.py" ])
  /\ validateCompilationRequest plain = (Returns, []).
Proof.
  split; [|split; vm_compute; reflexivity].
  exact (scan_does_not_affect_validation
           (mkRequest "ws-1" "python"
              (Some [mkFile "main.py" "import os;os.system('id')"]) None None)
           (mkRequest "ws-1" "python"
              (Some [mkFile "main.py" "print('Hello, World!!!!')"]) None None)
           eq_refl eq_refl eq_refl).
Defined.

(** *** Polling *)

Lemma rounds_from (a n : nat) :
  flat_map (fun k => [Wait 1000; Get k]) (seq a (S n)) =
  Wait 1000 :: Get a :: flat_map (fun k => [Wait 1000; Get k]) (seq (S a) n).
Proof. reflexivity. Qed.


(** The loop never runs out of calls: it always ends by writing a final
    status, and that status is terminal. *)
Lemma poll_settles (remote : nat -> PollOutcome) (fuel : nat) :
  forall attempts : nat,
    (maxAttempts <= attempts + fuel)%nat -> (attempts < maxAttempts)%nat ->
    exists pre st u,
      poll fuel attempts remote = pre ++ [Update st u]
      /\ isTerminal st = true
      /\ Forall (fun step => forall st' u', step <> Update st' u') pre.
Proof.
  induction fuel as [|fuel IH]; intros attempts Hsum Hlt; [lia|].
  cbn [poll].
  assert (Hfinal : forall o, exists st u, atBound o = Update st u /\ isTerminal st = true).
  { intros [|r]; cbn [atBound]; [do 2 eexists; split; reflexivity|].
    destruct (stillProcessing r); [do 2 eexists; split; reflexivity|].
    unfold completion.
    destruct (j_status_id r) as [[|[[|[]|]|[]|]|]|]; do 2 eexists; split; reflexivity. }
  destruct (Nat.ltb_spec (S attempts) maxAttempts) as [Hlt'|Hge].
  - destruct (IH (S attempts) ltac:(lia) Hlt') as (pre & st & u & Hp & Ht & Hpre).
    destruct (remote (S attempts)) as [|r].
    + exists (Get (S attempts) :: Wait 1000 :: pre), st, u.
      rewrite Hp. repeat split; [exact Ht|]. repeat constructor; try discriminate. exact Hpre.
    + destruct (stillProcessing r) eqn:Hs.
      * exists (Get (S attempts) :: Wait 1000 :: pre), st, u.
        rewrite Hp. repeat split; [exact Ht|].
        repeat constructor; try discriminate. exact Hpre.
      * destruct (Hfinal (GetReturns r)) as (st' & u' & Hf & Ht').
        cbn [atBound] in Hf. rewrite Hs in Hf.
        exists [Get (S attempts)], st', u'. rewrite Hf.
        repeat split; [exact Ht'|]. repeat constructor. discriminate.
  - destruct (Hfinal (remote (S attempts))) as (st' & u' & Hf & Ht').
    exists [Get (S attempts)], st', u'.
    unfold atBound in Hf.
    destruct (remote (S attempts)) as [|r].
    + rewrite Hf. repeat split; [exact Ht'|]. repeat constructor. discriminate.
    + destruct (stillProcessing r); rewrite Hf;
        (repeat split; [exact Ht'|]; repeat constructor; discriminate).
Qed.






(** *** Submission *)


(** A fresh job id has no row, so the [updateJobStatus] of the [catch]
    changes nothing: a rejected request leaves no job behind. *)
Lemma updateJobStatus_absent (s : Store) (jobId : string) (st : Status) (u : Updates)
    (now : Z) :
  jobs s !! jobId = None -> updateJobStatus s jobId st u now = s.
Proof. unfold updateJobStatus. intros ->. reflexivity. Qed.

Lemma service_rejects_empty_list (jobId : string) (now : Z)
    (judge0 : string -> option string) (s : Store) (userId : string)
    (request : CompilationRequest) :
  jobs s !! jobId = None ->
  workspaceId request <> "" -> language request <> "" ->
  sourceFiles request = Some [] ->
  submitCompilation jobId now judge0 s userId request =
  (SubmitThrows "At least one source file is required", s).
Proof.
  intros Hfresh Hw Hl Hs. unfold submitCompilation.
  rewrite (validate_rejects_empty request Hw Hl Hs). cbn [fst].
  rewrite (updateJobStatus_absent _ _ _ _ _ Hfresh). reflexivity.
Qed.

(** *** The completion time in the store *)

Lemma pending_row_wellTimed (jobId userId : string) (request : CompilationRequest) (now : Z) :
  rowWellTimed (createCompilationJob jobId userId request now).
Proof.
  unfold rowWellTimed. cbn. split; [intros [x Hx]; discriminate Hx | discriminate].
Qed.

Lemma updateJobStatus_wellTimed (s : Store) (jobId : string) (st : Status) (u : Updates)
    (now : Z) :
  isTerminal st = true -> storeWellTimed s ->
  storeWellTimed (updateJobStatus s jobId st u now).
Proof.
  intros Ht [Hj Hc]. unfold updateJobStatus.
  destruct (jobs s !! jobId) as [r|]; [|split; assumption].
  assert (Hr : rowWellTimed
                 (mkRow (id r) (user_id r) (workspace_id r) (r_language r)
                    (source_files r) (compiler_flags r) st
                    (pick (u_stdout u) (stdout r)) (pick (u_stderr u) (stderr r))
                    (pick (u_exit_code u) (exit_code r))
                    (pick (u_execution_time_ms u) (execution_time_ms r))
                    (pick (u_memory_used_kb u) (memory_used_kb r))
                    (metadata r) (created_at r) (Some now))).
  { unfold rowWellTimed. cbn [completed_at status].
    split; intros _; [exact Ht | eexists; reflexivity]. }
  split; cbn [withJobs jobs cache]; apply map_Forall_insert_2; assumption.
Qed.

Lemma updateJobMetadata_wellTimed (s : Store) (jobId token : string) :
  storeWellTimed s -> storeWellTimed (updateJobMetadata s jobId token).
Proof.
  intros [Hj Hc]. unfold updateJobMetadata.
  destruct (jobs s !! jobId) as [r|] eqn:Hr; [|split; assumption].
  split; cbn [withJobs jobs cache]; [|exact Hc].
  apply map_Forall_insert_2; [|exact Hj].
  exact (map_Forall_lookup_1 _ _ _ _ Hj Hr).
Qed.

Lemma submitCompilation_wellTimed (jobId : string) (now : Z)
    (judge0 : string -> option string) (s : Store) (userId : string)
    (request : CompilationRequest) :
  storeWellTimed s ->
  storeWellTimed (snd (submitCompilation jobId now judge0 s userId request)).
Proof.
  intros Hs. unfold submitCompilation.
  destruct (fst (validateCompilationRequest request));
    [|apply updateJobStatus_wellTimed; [reflexivity | exact Hs]].
  destruct (checkWorkspacePermissions s userId (workspaceId request));
    [|apply updateJobStatus_wellTimed; [reflexivity | exact Hs]].
  destruct (langConfig (language request));
    [|apply updateJobStatus_wellTimed; [reflexivity | exact Hs]].
  assert (Hs1 : storeWellTimed
                  (withJobs s (<[jobId := createCompilationJob jobId userId request now]>
                                 (jobs s)) (cache s))).
  { destruct Hs as [Hj Hc]. split; cbn [withJobs jobs cache]; [|exact Hc].
    apply map_Forall_insert_2; [apply pending_row_wellTimed | exact Hj]. }
  destruct (prepareSourceCode _ _) as [sourceCode|];
    [|apply updateJobStatus_wellTimed; [reflexivity | exact Hs1]].
  destruct (judge0 sourceCode) as [token|]; cbn [snd].
  - apply updateJobMetadata_wellTimed, Hs1.
  - apply updateJobStatus_wellTimed; [reflexivity | exact Hs1].
Qed.

Lemma poll_writesTerminal (remote : nat -> PollOutcome) (fuel : nat) :
  forall attempts : nat, Forall writesTerminal (poll fuel attempts remote).
Proof.
  induction fuel as [|fuel IH]; intros attempts; [constructor|].
  cbn [poll]. constructor; [exact I|].
  destruct (remote (S attempts)) as [|r].
  - destruct (S attempts <? maxAttempts)%nat.
    + constructor; [exact I | apply IH].
    + repeat constructor.
  - destruct (stillProcessing r).
    + destruct (S attempts <? maxAttempts)%nat.
      * constructor; [exact I | apply IH].
      * repeat constructor.
    + repeat constructor. cbn.
      destruct (j_status_id r) as [[|[[|[]|]|[]|]|]|]; reflexivity.
Qed.

Lemma runPoll_wellTimed (s : Store) (jobId : string) (remote : nat -> PollOutcome)
    (now : Z) :
  storeWellTimed s -> storeWellTimed (runPoll s jobId remote now).
Proof.
  unfold runPoll, pollJudge0Results.
  assert (H : Forall writesTerminal (Wait 1000 :: poll maxAttempts 0 remote))
    by (constructor; [exact I | apply poll_writesTerminal]).
  revert s H. generalize (Wait 1000 :: poll maxAttempts 0 remote).
  intros steps. induction steps as [|step steps IH]; intros s H Hs; [exact Hs|].
  cbn [fold_left]. inversion H as [|? ? Hstep Hrest]; subst.
  apply IH; [exact Hrest|].
  destruct step; cbn [applyStep]; try exact Hs.
  apply updateJobStatus_wellTimed; [exact Hstep | exact Hs].
Qed.

Lemma getCompilationStatus_wellTimed (healthy : bool) (s : Store) (userId jobId : string) :
  storeWellTimed s -> storeWellTimed (snd (getCompilationStatus healthy s userId jobId)).
Proof.
  intros Hs. unfold getCompilationStatus.
  destruct healthy; cbn [negb]; [|exact Hs].
  assert (Hdb : storeWellTimed
            (snd match jobs s !! jobId with
                 | Some job =>
                     if String.eqb (user_id job) userId
                     then (Some (formatCompilationResult job),
                           withJobs s (jobs s) (<[jobId := job]> (cache s)))
                     else (None, s)
                 | None => (None, s)
                 end)).
  { destruct (jobs s !! jobId) as [job|] eqn:Hjob; [|exact Hs].
    destruct (String.eqb (user_id job) userId); [|exact Hs].
    destruct Hs as [Hj Hc]. split; cbn [snd withJobs jobs cache]; [exact Hj|].
    apply map_Forall_insert_2; [|exact Hc].
    exact (map_Forall_lookup_1 _ _ _ _ Hj Hjob). }
  destruct (cache s !! jobId) as [cached|]; [|exact Hdb].
  destruct (String.eqb (user_id cached) userId); [exact Hs | exact Hdb].
Qed.

(** *** Status queries *)

Lemma getCompilationStatus_absent (healthy : bool) (s : Store) (userId jobId : string) :
  jobs s !! jobId = None -> cache s !! jobId = None ->
  getCompilationStatus healthy s userId jobId = (None, s).
Proof.
  intros Hj Hc. unfold getCompilationStatus. rewrite Hj, Hc.
  destruct healthy; reflexivity.
Qed.

Lemma getCompilationStatus_foreign (healthy : bool) (s : Store) (userId jobId : string)
    (row : Row) :
  jobs s !! jobId = Some row -> user_id row <> userId ->
  (forall cached, cache s !! jobId = Some cached -> user_id cached <> userId) ->
  getCompilationStatus healthy s userId jobId = (None, s).
Proof.
  intros Hj Hne Hc. unfold getCompilationStatus. rewrite Hj.
  destruct healthy; cbn [negb]; [|reflexivity].
  destruct (String.eqb_spec (user_id row) userId); [contradiction|].
  destruct (cache s !! jobId) as [cached|]; [|reflexivity].
  destruct (String.eqb_spec (user_id cached) userId); [|reflexivity].
  exfalso. exact (Hc cached eq_refl ltac:(assumption)).
Qed.

End ServiceFacts.

(** ** The orchestrator as a whole: routes and service together *)

Module OrchestratorFacts.

(** C3. The completion time is set exactly when the status is terminal,
    at every point of a job's life. In the routes: for every job in the
    map once the pending job is stored, while it is running and once it is
    finished, whatever Judge0 and the local run answer. In the service:
    for every stored and cached row after a submission, after the polling
    has written its result and after a status query. Both provided the
    stores were so before. *)
Theorem completedAt_iff_terminal
    (env : CompileRoutes.Env) (jobs : gmap string CompileRoutes.Job)
    (jobId user workspaceId language : string)
    (files : list CompileRoutes.SourceFile) (opts : option CompileRoutes.CompilerOptions)
    (createdAt : Z)
    (s : CompilationService.Store) (now : Z) (judge0 : string -> option string)
    (request : CompilationService.CompilationRequest)
    (remote : nat -> CompilationService.PollOutcome) (later : Z)
    (healthy : bool) (reader : string) :
  CompileRoutes.jobsWellTimed jobs ->
  CompilationService.storeWellTimed s ->
  let created :=
    <[jobId := CompileRoutes.newJob jobId user workspaceId language files opts createdAt]>
      jobs in
  let s1 := snd (CompilationService.submitCompilation jobId now judge0 s user request) in
  let s2 := CompilationService.runPoll s1 jobId remote later in
  Forall CompileRoutes.jobsWellTimed
         (created :: CompileRoutes.processCompilation env created jobId)
  /\ CompilationService.storeWellTimed s1
  /\ CompilationService.storeWellTimed s2
  /\ CompilationService.storeWellTimed
       (snd (CompilationService.getCompilationStatus healthy s2 reader jobId)).
Proof.
  intros Hjobs Hs created s1 s2.
  assert (H1 : CompilationService.storeWellTimed s1)
    by (apply ServiceFacts.submitCompilation_wellTimed, Hs).
  assert (H2 : CompilationService.storeWellTimed s2)
    by (apply ServiceFacts.runPoll_wellTimed, H1).
  split; [apply RoutesFacts.route_lifecycle_wellTimed, Hjobs|].
  split; [exact H1|]. split; [exact H2|].
  apply ServiceFacts.getCompilationStatus_wellTimed, H2.
Qed.

Lemma completedAt_iff_terminal_witness :
  let env := CompileRoutes.mkEnv
               (CompileRoutes.FetchResponse true
                  (CompileRoutes.JsonValue
                     (CompileRoutes.mkSubmission (Some 3) (Some "42") None None
                                                 (Some (1 # 100)) (Some (2048 # 1)))))
               (fun _ _ _ => CodeRunner.Rejected "not called")
               2000 (1 # 2) (1 # 4) in
  let created : gmap string CompileRoutes.Job :=
    <["job-1" := CompileRoutes.newJob "job-1" "alice" "ws-1" "python"
                   [CompileRoutes.mkFile "main.py" "print(42)"] None 1000]> ∅ in
  let s := CompilationService.mkStore ∅ {[ "ws-1" := "alice" ]} [] ∅ in
  let request := CompilationService.mkRequest "ws-1" "python"
                   (Some [CompilationService.mkFile "main.py" "print(42)"]) None None in
  let remote := fun _ : nat =>
    CompilationService.GetReturns
      (CompilationService.mkJudge0 (Some 3) (Some "42") None None (Some (1 # 100))
                                   (Some 2048)) in
  let s1 := snd (CompilationService.submitCompilation "job-1" 1000 (fun _ => Some "tok") s
                   "alice" request) in
  let s2 := CompilationService.runPoll s1 "job-1" remote 2000 in
  Forall CompileRoutes.jobsWellTimed
         (created :: CompileRoutes.processCompilation env created "job-1")
  /\ CompilationService.storeWellTimed s1
  /\ CompilationService.storeWellTimed s2
  /\ CompilationService.storeWellTimed
       (snd (CompilationService.getCompilationStatus true s2 "alice" "job-1")).
Proof.
  refine (completedAt_iff_terminal
           (CompileRoutes.mkEnv
               (CompileRoutes.FetchResponse true
                  (CompileRoutes.JsonValue
                     (CompileRoutes.mkSubmission (Some 3) (Some "42") None None
                                                 (Some (1 # 100)) (Some (2048 # 1)))))
               (fun _ _ _ => CodeRunner.Rejected "not called")
               2000 (1 # 2) (1 # 4))
           ∅ "job-1" "alice" "ws-1" "python"
           [CompileRoutes.mkFile "main.py" "print(42)"] None 1000
           (CompilationService.mkStore ∅ {[ "ws-1" := "alice" ]} [] ∅)
           1000 (fun _ => Some "tok")
           (CompilationService.mkRequest "ws-1" "python"
              (Some [CompilationService.mkFile "main.py" "print(42)"]) None None)
           (fun _ : nat =>
              CompilationService.GetReturns
                (CompilationService.mkJudge0 (Some 3) (Some "42") None None (Some (1 # 100))
                                             (Some 2048)))
           2000 true "alice" _ _).
  - apply map_Forall_empty.
  - split; apply map_Forall_empty.
Defined.

(** C4, evaluated where it fails. The submit route accepts an empty
    [sourceFiles] array: it answers 202 with the job id and stores the
    job. The service's validator rejects the same request, and with a
    fresh job id no row is left behind. *)
Theorem empty_source_list_creates_job
    (jobId : string) (createdAt : Z) (jobs : gmap string CompileRoutes.Job) (user : string)
    (now : Z) (judge0 : string -> option string) :
  let body := CompileRoutes.mkBody (Some "ws-1") (Some "python")
                                   (CompileRoutes.SfArray []) None in
  let request := CompilationService.mkRequest "ws-1" "python" (Some []) None None in
  let s := CompilationService.mkStore ∅ {[ "ws-1" := user ]} [] ∅ in
  fst (CompileRoutes.submitHandler jobId createdAt jobs user body)
    = CompileRoutes.Accepted jobId CompileRoutes.Pending "Compilation job submitted"
  /\ snd (CompileRoutes.submitHandler jobId createdAt jobs user body) !! jobId
     = Some (CompileRoutes.setStatus
               (CompileRoutes.newJob jobId user "ws-1" "python" [] None createdAt)
               CompileRoutes.Running)
  /\ CompilationService.submitCompilation jobId now judge0 s user request
     = (CompilationService.SubmitThrows "At least one source file is required", s).
Proof.
  cbv zeta. rewrite RoutesFacts.submitHandler_empty_array. cbn [fst snd].
  split; [reflexivity|]. split; [apply lookup_insert_eq|].
  apply ServiceFacts.service_rejects_empty_list;
    [apply lookup_empty | discriminate | discriminate | reflexivity].
Qed.

(** C6. A status query for a job of another principal is answered exactly
    like one for a job that does not exist: the route sends the same 404
    body, the service returns [null] and leaves store and cache as they
    were. *)
Theorem status_hides_foreign_jobs
    (jobs1 jobs2 : gmap string CompileRoutes.Job) (foreign : CompileRoutes.Job)
    (s1 s2 : CompilationService.Store) (row : CompilationService.Row)
    (healthy : bool) (p j : string) :
  jobs1 !! j = None ->
  jobs2 !! j = Some foreign -> CompileRoutes.userId foreign <> p ->
  CompilationService.jobs s1 !! j = None -> CompilationService.cache s1 !! j = None ->
  CompilationService.jobs s2 !! j = Some row -> CompilationService.user_id row <> p ->
  (forall cached, CompilationService.cache s2 !! j = Some cached ->
                  CompilationService.user_id cached <> p) ->
  CompileRoutes.statusHandler jobs1 p j = CompileRoutes.statusHandler jobs2 p j
  /\ CompileRoutes.statusHandler jobs2 p j
     = CompileRoutes.ErrorResponse 404 "Compilation job not found"
  /\ fst (CompilationService.getCompilationStatus healthy s1 p j)
     = fst (CompilationService.getCompilationStatus healthy s2 p j)
  /\ CompilationService.getCompilationStatus healthy s1 p j = (None, s1)
  /\ CompilationService.getCompilationStatus healthy s2 p j = (None, s2).
Proof.
  intros H1 H2 Hne Hj1 Hc1 Hj2 Hrow Hc2.
  rewrite (RoutesFacts.statusHandler_absent _ _ _ H1).
  rewrite (RoutesFacts.statusHandler_foreign _ _ _ _ H2 Hne).
  rewrite (ServiceFacts.getCompilationStatus_absent _ _ _ _ Hj1 Hc1).
  rewrite (ServiceFacts.getCompilationStatus_foreign _ _ _ _ _ Hj2 Hrow Hc2).
  repeat split.
Qed.

Lemma status_hides_foreign_jobs_witness :
  let bobsJob := CompileRoutes.newJob "job-7" "bob" "ws-2" "python"
                   [CompileRoutes.mkFile "main.py" "print(7)"] None 1000 in
  let bobsRow := CompilationService.createCompilationJob "job-7" "bob"
                   (CompilationService.mkRequest "ws-2" "python"
                      (Some [CompilationService.mkFile "main.py" "print(7)"]) None None)
                   1000 in
  let s1 := CompilationService.mkStore ∅ ∅ [] ∅ in
  let s2 := CompilationService.mkStore {[ "job-7" := bobsRow ]} ∅ []
                                       {[ "job-7" := bobsRow ]} in
  CompileRoutes.statusHandler ∅ "alice" "job-7"
    = CompileRoutes.statusHandler {[ "job-7" := bobsJob ]} "alice" "job-7"
  /\ CompileRoutes.statusHandler {[ "job-7" := bobsJob ]} "alice" "job-7"
     = CompileRoutes.ErrorResponse 404 "Compilation job not found"
  /\ fst (CompilationService.getCompilationStatus true s1 "alice" "job-7")
     = fst (CompilationService.getCompilationStatus true s2 "alice" "job-7")
  /\ CompilationService.getCompilationStatus true s1 "alice" "job-7" = (None, s1)
  /\ CompilationService.getCompilationStatus true s2 "alice" "job-7" = (None, s2).
Proof.
  refine (status_hides_foreign_jobs ∅ {[ "job-7" := _ ]} _
            (CompilationService.mkStore ∅ ∅ [] ∅)
            (CompilationService.mkStore {[ "job-7" := _ ]} ∅ [] {[ "job-7" := _ ]}) _
            true "alice" "job-7"
            (lookup_empty _) (lookup_singleton_eq _ _) _
            (lookup_empty _) (lookup_empty _) (lookup_singleton_eq _ _) _ _).
  - discriminate.
  - discriminate.
  - intros cached Hc. cbn [CompilationService.cache] in Hc.
    rewrite lookup_singleton_eq in Hc. injection Hc as <-. discriminate.
Defined.

End OrchestratorFacts.

(** ** More on the local runner *)

Module RunnerExtras.
Import CodeRunner.

Lemma unsettled_unresolved (timeoutMs : N) (startTime : Z) (evs : list ProcEvent) :
  forall st, resolved st = None ->
  forallb (fun ev => negb (settles ev)) evs = true ->
  resolved (runEvents timeoutMs startTime st evs) = None.
Proof.
  induction evs as [|ev evs IH]; intros st Hr Hn; [exact Hr|].
  cbn [forallb] in Hn. apply andb_prop in Hn as [Hev Hn].
  rewrite RunnerFacts.runEvents_cons. apply IH; [|exact Hn].
  destruct ev; try discriminate Hev; cbn [handle resolved]; try exact Hr.
  destruct (timerPending st); exact Hr.
Qed.

(** X1. The promise settles once: whatever the child or the timer do
    after the result was produced, the result stays the same. *)
Theorem result_is_final
    (command : string) (args : list string) (code : string) (options : ExecutionOptions)
    (startTime : Z) (evs more : list ProcEvent) (r : ExecutionResult) :
  fst (executeWithProcess command args code options startTime evs) = Some r ->
  fst (executeWithProcess command args code options startTime (evs ++ more)) = Some r.
Proof.
  unfold executeWithProcess. cbn [fst]. intros Hr.
  rewrite RunnerFacts.runEvents_app. apply RunnerFacts.runEvents_resolved, Hr.
Qed.

Lemma result_is_final_witness :
  fst (executeWithProcess "ruby" ["/tmp/ai-ide-runner/ruby_5.rb"] "puts 1"
         (mkOptions None None None) 0
         ([StdoutData "1"; Close (Some 0) 20]
          ++ [TimerFired; StdoutData "late"; ProcError "EPIPE" 30; Close (Some 1) 31]))
  = Some (mkResult ExSuccess "1" "" 0 20 None).
Proof.
  exact (result_is_final "ruby" ["/tmp/ai-ide-runner/ruby_5.rb"] "puts 1"
           (mkOptions None None None) 0
           [StdoutData "1"; Close (Some 0) 20]
           [TimerFired; StdoutData "late"; ProcError "EPIPE" 30; Close (Some 1) 31]
           (mkResult ExSuccess "1" "" 0 20 None) eq_refl).
Defined.

(** X2. When the child reports an error before it closes (the
    interpreter cannot be started, say), the result is [error] with exit
    code 1 and the error message as stderr; output captured until then is
    dropped, and a timer that fired before does not turn it into a
    timeout. *)
Theorem spawn_error_result
    (command : string) (args : list string) (code : string) (options : ExecutionOptions)
    (startTime : Z) (pre post : list ProcEvent) (message : string) (t : Z) :
  forallb (fun ev => negb (settles ev)) pre = true ->
  fst (executeWithProcess command args code options startTime
         (pre ++ ProcError message t :: post))
  = Some (mkResult ExError "" message 1 (t - startTime) None).
Proof.
  intros Hpre. unfold executeWithProcess. cbn [fst].
  rewrite RunnerFacts.runEvents_app, RunnerFacts.runEvents_cons.
  apply RunnerFacts.runEvents_resolved. cbn [handle resolved].
  rewrite (unsettled_unresolved _ _ pre (startProcess command args options) eq_refl Hpre).
  reflexivity.
Qed.

Lemma spawn_error_result_witness :
  fst (executeWithProcess "lua" ["/tmp/ai-ide-runner/lua_7.lua"] "print(1)"
         (mkOptions (Some 50%N) None None) 100
         ([StdoutData "partial"; TimerFired] ++ ProcError "spawn lua ENOENT" 160
          :: [Close None 161]))
  = Some (mkResult ExError "" "spawn lua ENOENT" 1 60 None).
Proof.
  exact (spawn_error_result "lua" ["/tmp/ai-ide-runner/lua_7.lua"] "print(1)"
           (mkOptions (Some 50%N) None None) 100
           [StdoutData "partial"; TimerFired] [Close None 161] "spawn lua ENOENT" 160
           eq_refl).
Defined.

(** X3. A child that has closed or failed before the timer fired is
    never signalled afterwards: the listener clears the timer, so no kill
    can reach a process id that may have been reused. *)
Theorem settled_child_never_signalled
    (command : string) (args : list string) (code : string) (options : ExecutionOptions)
    (startTime : Z) (pre post : list ProcEvent) (ev : ProcEvent) :
  forallb isData pre = true -> settles ev = true ->
  killsOf (snd (executeWithProcess command args code options startTime
                  (pre ++ ev :: post))) = [].
Proof.
  intros Hpre Hev. unfold executeWithProcess. cbn [snd].
  rewrite RunnerFacts.runEvents_app, (RunnerFacts.runEvents_data _ _ _ _ Hpre),
    RunnerFacts.runEvents_cons.
  rewrite RunnerFacts.runEvents_no_more_kills
    by (destruct ev; try discriminate Hev; reflexivity).
  destruct ev; try discriminate Hev; cbn [handle actions]; unfold killsOf;
    rewrite List.filter_app; fold (killsOf (actions (startProcess command args options)));
    rewrite RunnerFacts.startProcess_kills; reflexivity.
Qed.

Lemma settled_child_never_signalled_witness :
  killsOf (snd (executeWithProcess "perl" ["/tmp/ai-ide-runner/perl_9.pl"] "print 1"
                  (mkOptions (Some 1000%N) None (Some "in")) 0
                  ([StdoutData "1"] ++ Close (Some 0) 10 :: [TimerFired; TimerFired]))) = [].
Proof.
  exact (settled_child_never_signalled "perl" ["/tmp/ai-ide-runner/perl_9.pl"] "print 1"
           (mkOptions (Some 1000%N) None (Some "in")) 0
           [StdoutData "1"] [TimerFired; TimerFired] (Close (Some 0) 10)
           eq_refl eq_refl).
Defined.

Lemma tempFileOf_language (tmpdir : string) (k1 k2 : TempLanguage) (now1 now2 : N) :
  tempFileOf tmpdir k1 now1 = tempFileOf tmpdir k2 now2 -> k1 = k2.
Proof.
  unfold tempFileOf, tempFile, pathJoin. intros H.
  do 2 apply StringFacts.app_inv_head in H.
  destruct k1, k2; try reflexivity; exfalso;
    cbn [filePrefix] in H; rewrite !StringFacts.app_cons in H; discriminate H.
Qed.

(** X4. Two temp-file executions are given the same file exactly when
    they run the same language and read the same millisecond clock. *)
Theorem tempFile_shared_iff (tmpdir : string) (k1 k2 : TempLanguage) (now1 now2 : N) :
  tempFileOf tmpdir k1 now1 = tempFileOf tmpdir k2 now2 <-> k1 = k2 /\ now1 = now2.
Proof.
  split.
  - intros H. pose proof (tempFileOf_language _ _ _ _ _ H) as ->.
    split; [reflexivity|]. exact (RunnerFacts.tempFile_inj _ _ _ _ _ H).
  - intros [-> ->]. reflexivity.
Qed.







End RunnerExtras.

(** ** More on the compile routes *)

Module RoutesExtras.
Import CompileRoutes.

(** X7. Eight languages the submit route accepts have neither a Judge0
    id nor a local executor: a job in one of them always ends as
    [success] with exit code 0 and the canned syntax-valid text, whatever
    the code, Judge0 and the executors would do. *)
Theorem unrunnable_languages_always_succeed (env : Env) (job : Job) :
  In (language job)
     ["fsharp"; "powershell"; "ocaml"; "clojure"; "julia"; "nim"; "zig"; "v"] ->
  hasLangConfig (language job) = true
  /\ status (finishCompilation env job) = Success
  /\ exitCode (finishCompilation env job) = Some 0
  /\ stderr (finishCompilation env job) = Some ""
  /\ stdout (finishCompilation env job)
     = Some (CodeRunner.stdout
               (CodeRunner.syntaxValidResult (language job) (firstContent job))).
Proof.
  intros Hin.
  assert (Hrun : getJudge0LanguageId (language job) = None
                 /\ hasLangConfig (language job) = true
                 /\ CodeRunner.switchOn CodeRunner.dispatchTable
                      (Js.toLowerCase (language job)) = None).
  { cbn [In] in Hin.
    repeat (destruct Hin as [<-|Hin]; [repeat split|]). destruct Hin. }
  destruct Hrun as (Hid & Hcfg & Hsw).
  unfold finishCompilation. rewrite Hid.
  unfold localFallback, executeLocally, CodeRunner.runCode. rewrite Hsw.
  repeat split. exact Hcfg.
Qed.

Lemma unrunnable_languages_always_succeed_witness :
  let env := mkEnv (FetchResponse true
                      (JsonValue (mkSubmission (Some 6) None (Some "compile error") None
                                               None None)))
                   (fun _ _ _ => CodeRunner.Rejected "never called")
                   5000 (1 # 3) (1 # 5) in
  let job := newJob "job-3" "carol" "ws-3" "zig"
                    [mkFile "main.zig" "this is not zig"] None 4000 in
  hasLangConfig "zig" = true
  /\ status (finishCompilation env job) = Success
  /\ exitCode (finishCompilation env job) = Some 0
  /\ stderr (finishCompilation env job) = Some ""
  /\ stdout (finishCompilation env job)
     = Some (CodeRunner.stdout (CodeRunner.syntaxValidResult "zig" "this is not zig")).
Proof.
  refine (unrunnable_languages_always_succeed
            (mkEnv (FetchResponse true
                      (JsonValue (mkSubmission (Some 6) None (Some "compile error") None
                                               None None)))
                   (fun _ _ _ => CodeRunner.Rejected "never called")
                   5000 (1 # 3) (1 # 5))
            (newJob "job-3" "carol" "ws-3" "zig"
                    [mkFile "main.zig" "this is not zig"] None 4000) _).
  cbn. tauto.
Defined.

(** X8. A submission the route answers with an error has status 400 and
    leaves the job map as it was: no job is created for it. *)
Theorem rejected_submission_creates_no_job
    (jobId : string) (createdAt : Z) (jobs : gmap string Job) (user : string)
    (body : SubmitBody) (code : Z) (error : string) :
  fst (submitHandler jobId createdAt jobs user body) = ErrorResponse code error ->
  code = 400 /\ snd (submitHandler jobId createdAt jobs user body) = jobs.
Proof.
  unfold submitHandler.
  destruct (truthy (b_workspaceId body)); [|intros [= <- _]; split; reflexivity].
  destruct (truthy (b_language body)); [|intros [= <- _]; split; reflexivity].
  destruct (b_sourceFiles body); try (intros [= <- _]; split; reflexivity).
  destruct (hasLangConfig _); [discriminate | intros [= <- _]; split; reflexivity].
Qed.

Lemma rejected_submission_creates_no_job_witness :
  400 = 400
  /\ snd (submitHandler "job-9" 7 ∅ "alice"
            (mkBody (Some "ws-1") (Some "cobol") (SfArray [mkFile "a.cob" "x"]) None))
     = ∅.
Proof.
  exact (rejected_submission_creates_no_job "job-9" 7 ∅ "alice"
           (mkBody (Some "ws-1") (Some "cobol") (SfArray [mkFile "a.cob" "x"]) None)
           400 "Unsupported language: cobol" eq_refl).
Defined.

(** X9. After an accepted submission the job is stored under the
    returned id, owned by the submitter and already running (the response
    still says pending): the submitter's status query shows it, any other
    user gets the 404, and every other job of the map is untouched. *)
Theorem accepted_submission_is_visible_to_owner_only
    (jobId : string) (createdAt : Z) (jobs : gmap string Job) (user : string)
    (body : SubmitBody) (returned : string) (st : JobStatus) (message : string) :
  fst (submitHandler jobId createdAt jobs user body) = Accepted returned st message ->
  let jobs' := snd (submitHandler jobId createdAt jobs user body) in
  returned = jobId /\ st = Pending
  /\ (exists view, statusHandler jobs' user jobId = JobJson view
                   /\ v_id view = jobId /\ v_status view = Running
                   /\ v_createdAt view = createdAt /\ v_completedAt view = None)
  /\ (forall stranger, stranger <> user ->
        statusHandler jobs' stranger jobId = ErrorResponse 404 "Compilation job not found")
  /\ (forall other, other <> jobId -> jobs' !! other = jobs !! other).
Proof.
  unfold submitHandler.
  destruct (truthy (b_workspaceId body)) as [ws|]; [|discriminate].
  destruct (truthy (b_language body)) as [lang|]; [|discriminate].
  destruct (b_sourceFiles body) as [| |files]; try discriminate.
  destruct (hasLangConfig lang); [|discriminate].
  cbn [fst snd]. intros [= <- <- _]. cbv zeta.
  split; [reflexivity|]. split; [reflexivity|].
  split; [|split].
  - eexists. unfold statusHandler. rewrite lookup_insert_eq.
    cbn [setStatus newJob userId]. rewrite String.eqb_refl.
    repeat split.
  - intros stranger Hne. unfold statusHandler. rewrite lookup_insert_eq.
    cbn [setStatus newJob userId].
    destruct (String.eqb_spec user stranger); [congruence | reflexivity].
  - intros other Hne. rewrite !lookup_insert_ne by congruence. reflexivity.
Qed.

Lemma accepted_submission_is_visible_to_owner_only_witness :
  let body := mkBody (Some "ws-1") (Some "python")
                     (SfArray [mkFile "main.py" "print(1)"]) None in
  let jobs' := snd (submitHandler "job-1" 7 ∅ "alice" body) in
  "job-1" = "job-1" /\ Pending = Pending
  /\ (exists view, statusHandler jobs' "alice" "job-1" = JobJson view
                   /\ v_id view = "job-1" /\ v_status view = Running
                   /\ v_createdAt view = 7 /\ v_completedAt view = None)
  /\ (forall stranger, stranger <> "alice" ->
        statusHandler jobs' stranger "job-1"
        = ErrorResponse 404 "Compilation job not found")
  /\ (forall other, other <> "job-1" -> jobs' !! other = (∅ : gmap string Job) !! other).
Proof.
  exact (accepted_submission_is_visible_to_owner_only "job-1" 7 ∅ "alice"
           (mkBody (Some "ws-1") (Some "python") (SfArray [mkFile "main.py" "print(1)"]) None)
           "job-1" Pending "Compilation job submitted" eq_refl).
Defined.

Lemma finishCompilation_identity (env : Env) (job : Job) :
  let job' := finishCompilation env job in
  id job' = id job /\ userId job' = userId job /\ workspaceId job' = workspaceId job
  /\ language job' = language job /\ sourceFiles job' = sourceFiles job
  /\ createdAt job' = createdAt job.
Proof.
  cbv zeta. unfold finishCompilation.
  destruct (getJudge0LanguageId (language job)); [|repeat split].
  destruct (fetchOutcome env) as [m|[] [|r]]; repeat split.
Qed.

(** X10. [processCompilation] changes one job only and never its
    identity: in every store it produces, all other jobs are as before,
    and the processed job keeps its id, owner, workspace, language,
    source files and creation time. *)
Theorem processing_keeps_identity_and_other_jobs
    (env : Env) (jobs store : gmap string Job) (jobId : string) (job : Job) :
  jobs !! jobId = Some job ->
  In store (processCompilation env jobs jobId) ->
  (forall other, other <> jobId -> store !! other = jobs !! other)
  /\ exists job', store !! jobId = Some job'
       /\ id job' = id job /\ userId job' = userId job
       /\ workspaceId job' = workspaceId job /\ language job' = language job
       /\ sourceFiles job' = sourceFiles job /\ createdAt job' = createdAt job.
Proof.
  intros Hjob Hin.
  rewrite (RoutesFacts.processCompilation_known env jobs jobId job Hjob) in Hin.
  destruct Hin as [<-|[<-|[]]].
  - split; [intros other Hne; apply lookup_insert_ne; congruence|].
    eexists. split; [apply lookup_insert_eq|]. repeat split.
  - split; [intros other Hne; apply lookup_insert_ne; congruence|].
    eexists. split; [apply lookup_insert_eq|].
    exact (finishCompilation_identity env (setStatus job Running)).
Qed.

Lemma processing_keeps_identity_and_other_jobs_witness :
  let env := mkEnv (FetchRejects "timeout")
                   (fun _ _ _ => CodeRunner.Rejected "boom") 9 (1 # 2) (1 # 2) in
  let job := newJob "job-1" "alice" "ws-1" "ruby" [mkFile "a.rb" "puts 1"] None 1 in
  let other := newJob "job-2" "bob" "ws-2" "lua" [] None 2 in
  let jobs : gmap string Job := <["job-1" := job]> {[ "job-2" := other ]} in
  let store := <["job-1" := finishCompilation env (setStatus job Running)]> jobs in
  (forall o, o <> "job-1" -> store !! o = jobs !! o)
  /\ exists job', store !! "job-1" = Some job'
       /\ id job' = id job /\ userId job' = userId job
       /\ workspaceId job' = workspaceId job /\ language job' = language job
       /\ sourceFiles job' = sourceFiles job /\ createdAt job' = createdAt job.
Proof.
  refine (processing_keeps_identity_and_other_jobs
            (mkEnv (FetchRejects "timeout")
                   (fun _ _ _ => CodeRunner.Rejected "boom") 9 (1 # 2) (1 # 2))
            (<["job-1" := newJob "job-1" "alice" "ws-1" "ruby" [mkFile "a.rb" "puts 1"]
                                 None 1]>
               {[ "job-2" := newJob "job-2" "bob" "ws-2" "lua" [] None 2 ]})
            _ "job-1" _ (lookup_insert_eq _ _ _) _).
  rewrite (RoutesFacts.processCompilation_known _ _ _ _ (lookup_insert_eq _ _ _)).
  right. left. reflexivity.
Defined.


(** The language tables agree: every language with a Judge0 id in
    the routes is one the submit route accepts, and every language of the
    service has the same Judge0 id in the routes' map. *)
Lemma judge0_tables_agree :
  Forall (fun entry => hasLangConfig (fst entry) = true) languageMap
  /\ Forall (fun entry => getJudge0LanguageId (fst entry) = Some (IdNumber (snd entry)))
            CompilationService.LANGUAGE_CONFIGS.
Proof. split; repeat constructor. Qed.

End RoutesExtras.

(** ** Authentication and OAuth states *)

Module AuthExtras.
Import Auth.

Lemma split_nonempty (sep : ascii) (s : string) : Js.split sep s <> [].
Proof.
  destruct s as [|c r]; cbn [Js.split]; [discriminate|].
  destruct (Ascii.eqb c sep); [discriminate|].
  destruct (Js.split sep r); discriminate.
Qed.

Lemma split_absent (sep : ascii) (s : string) :
  Js.hasChar sep s = false -> Js.split sep s = [s].
Proof.
  induction s as [|c r IH]; intros H; [reflexivity|].
  cbn [Js.hasChar] in H. apply orb_false_elim in H as [Hc Hr].
  cbn [Js.split]. rewrite Hc, (IH Hr). reflexivity.
Qed.

Lemma split_app (sep : ascii) (a b : string) :
  Js.split sep (a +:+ String sep b) = Js.split sep a ++ Js.split sep b.
Proof.
  induction a as [|c r IH].
  - rewrite StringFacts.app_nil_l. cbn [Js.split]. rewrite Ascii.eqb_refl. reflexivity.
  - rewrite StringFacts.app_cons. cbn [Js.split]. rewrite IH.
    destruct (Ascii.eqb c sep); [reflexivity|].
    destruct (Js.split sep r) as [|piece pieces] eqn:Hs; [|reflexivity].
    exfalso. exact (split_nonempty sep r Hs).
Qed.

(** Joining what was split gives the string back. *)
Lemma join_split (sep : ascii) (s : string) :
  Js.join (String sep "") (Js.split sep s) = s.
Proof.
  induction s as [|c r IH]; [reflexivity|].
  cbn [Js.split].
  destruct (Js.split sep r) as [|piece pieces] eqn:Hs;
    [exfalso; exact (split_nonempty sep r Hs)|].
  destruct (Ascii.eqb_spec c sep) as [->|Hne].
  - change (Js.join (String sep "") ("" :: piece :: pieces))
      with ("" +:+ String sep "" +:+ Js.join (String sep "") (piece :: pieces)).
    rewrite IH. reflexivity.
  - destruct pieces as [|p2 ps].
    + cbn [Js.join] in *. rewrite IH. reflexivity.
    + change (Js.join (String sep "") (String c piece :: p2 :: ps))
        with (String c piece +:+ String sep "" +:+ Js.join (String sep "") (p2 :: ps)).
      change (Js.join (String sep "") (piece :: p2 :: ps))
        with (piece +:+ String sep "" +:+ Js.join (String sep "") (p2 :: ps)) in IH.
      rewrite StringFacts.app_cons, IH. reflexivity.
Qed.

Lemma hasChar_app (c : ascii) (a b : string) :
  Js.hasChar c (a +:+ b) = Js.hasChar c a || Js.hasChar c b.
Proof.
  induction a as [|d r IH]; [reflexivity|].
  rewrite StringFacts.app_cons. cbn [Js.hasChar]. rewrite IH, orb_assoc. reflexivity.
Qed.

(** A printed clock holds digits only. *)
Lemma showN_digits (c : ascii) (n : N) :
  (c = "-" \/ c = " ")%char -> Js.hasChar c (Js.showN n) = false.
Proof.
  intros Hc. unfold Js.showN. generalize (N.to_uint n). intros d.
  induction d; cbn [NilEmpty.string_of_uint Js.hasChar]; try rewrite IHd;
    destruct Hc as [-> | ->]; reflexivity.
Qed.

Lemma bearer_token (numberIsNaN : string -> bool) (token : string) :
  Js.hasChar " " token = false -> token <> "" ->
  authenticateToken numberIsNaN (bearer token) =
  if Js.startsWith "mock-jwt-token" token
  then Authenticated (userIdOfToken numberIsNaN token) "demo@example.com"
  else Denied 403 "Invalid or expired token".
Proof.
  intros Hsp Hne. unfold authenticateToken, bearer.
  change ("Bearer " +:+ token) with (String "B" ("earer" +:+ String " " token)).
  cbn [String.eqb Ascii.eqb Bool.eqb].
  change (String "B" ("earer" +:+ String " " token))
    with ("Bearer" +:+ String " " token).
  rewrite split_app, (split_absent " " token Hsp).
  cbn [Js.split Ascii.eqb Bool.eqb app].
  destruct (String.eqb_spec token ""); [contradiction | reflexivity].
Qed.

(** X13. A token minted by the Google callbacks authenticates as that
    Google user, whatever the id looks like (dashes included), as long as
    it holds no space: the middleware reads back exactly the id the token
    was built from. *)
Theorem google_token_round_trip (numberIsNaN : string -> bool)
    (googleUserId : string) (now : N) :
  Js.hasChar " " googleUserId = false ->
  numberIsNaN (Js.showN now) = false ->
  authenticateToken numberIsNaN (bearer (googleJwt googleUserId now))
  = Authenticated googleUserId "demo@example.com".
Proof.
  intros Hsp Hnum.
  rewrite bearer_token.
  - unfold googleJwt.
    change (Js.startsWith "mock-jwt-token" ("mock-jwt-token-" +:+ _)) with true.
    cbv iota. f_equal. unfold userIdOfToken.
    assert (Hparts : Js.split "-" ("mock-jwt-token-" +:+ googleUserId +:+ "-" +:+ Js.showN now)
                     = "mock" :: "jwt" :: "token"
                       :: Js.split "-" googleUserId ++ [Js.showN now]).
    { change ("mock-jwt-token-" +:+ googleUserId +:+ "-" +:+ Js.showN now)
        with ("mock" +:+ String "-" ("jwt" +:+ String "-" ("token" +:+ String "-"
                (googleUserId +:+ String "-" (Js.showN now))))).
      rewrite !split_app.
      rewrite (split_absent "-" (Js.showN now)) by (apply showN_digits; left; reflexivity).
      reflexivity. }
    rewrite Hparts.
    destruct (Js.split "-" googleUserId) as [|piece pieces] eqn:Hid;
      [exfalso; exact (split_nonempty "-" googleUserId Hid)|].
    assert (Hlen : (5 <=? length ("mock" :: "jwt" :: "token"
                                   :: (piece :: pieces) ++ [Js.showN now]))%nat = true).
    { apply Nat.leb_le. cbn [length app]. rewrite length_app. cbn. lia. }
    rewrite Hlen.
    assert (Hlast : List.last ("mock" :: "jwt" :: "token"
                                 :: (piece :: pieces) ++ [Js.showN now]) ""
                    = Js.showN now).
    { change ("mock" :: "jwt" :: "token" :: (piece :: pieces) ++ [Js.showN now])
        with (("mock" :: "jwt" :: "token" :: piece :: pieces) ++ [Js.showN now]).
      apply List.last_last. }
    rewrite Hlast, Hnum.
    assert (Hslice : Js.sliceToLast 3 ("mock" :: "jwt" :: "token"
                                       :: (piece :: pieces) ++ [Js.showN now])
                     = piece :: pieces).
    { unfold Js.sliceToLast. cbn [List.skipn length app].
      rewrite length_app. cbn [length].
      replace (S (S (S (S (length pieces + 1)))) - 1 - 3)%nat
        with (length (piece :: pieces) + 0)%nat by (cbn; lia).
      change (piece :: pieces ++ [Js.showN now])
        with ((piece :: pieces) ++ [Js.showN now]).
      rewrite List.firstn_app_2. cbn [List.firstn]. apply app_nil_r. }
    rewrite Hslice. cbn [negb andb length Nat.ltb Nat.leb].
    rewrite <- Hid. apply (join_split "-").
  - unfold googleJwt. rewrite !hasChar_app, Hsp.
    rewrite (showN_digits " " now) by (right; reflexivity). reflexivity.
  - unfold googleJwt. discriminate.
Qed.

Lemma google_token_round_trip_witness :
  authenticateToken
    (fun s => match NilEmpty.uint_of_string s with Some _ => false | None => true end)
    (bearer (googleJwt "10-87" 1700000000000))
  = Authenticated "10-87" "demo@example.com".
Proof.
  exact (google_token_round_trip
           (fun s => match NilEmpty.uint_of_string s with Some _ => false | None => true end)
           "10-87" 1700000000000 eq_refl eq_refl).
Defined.

Lemma plainJwt_parts (now : N) :
  Js.split "-" (plainJwt now) = ["mock"; "jwt"; "token"; Js.showN now].
Proof.
  unfold plainJwt.
  change ("mock-jwt-token-" +:+ Js.showN now)
    with ("mock" +:+ String "-" ("jwt" +:+ String "-" ("token" +:+ String "-"
            (Js.showN now)))).
  rewrite !split_app.
  rewrite (split_absent "-" (Js.showN now)) by (apply showN_digits; left; reflexivity).
  reflexivity.
Qed.

(** X14. A token minted by the GitHub callbacks or by the refresh route
    carries no user id: it always authenticates as the default user "1",
    whoever asked for it. *)
Theorem plain_token_is_default_user (numberIsNaN : string -> bool) (now : N) :
  authenticateToken numberIsNaN (bearer (plainJwt now))
  = Authenticated "1" "demo@example.com".
Proof.
  rewrite bearer_token.
  - unfold plainJwt at 1.
    change (Js.startsWith "mock-jwt-token" ("mock-jwt-token-" +:+ _)) with true.
    cbv iota. unfold userIdOfToken. rewrite plainJwt_parts. reflexivity.
  - unfold plainJwt. rewrite hasChar_app.
    rewrite (showN_digits " " now) by (right; reflexivity). reflexivity.
  - unfold plainJwt. discriminate.
Qed.

(** X15. A token minted by the demo login is never accepted by the
    middleware: it does not start with [mock-jwt-token], so every request
    carrying it is answered 403. *)
Theorem demo_token_is_rejected (numberIsNaN : string -> bool) (idClock now : N) :
  authenticateToken numberIsNaN (bearer (demoJwt idClock now))
  = Denied 403 "Invalid or expired token".
Proof.
  rewrite bearer_token.
  - reflexivity.
  - unfold demoJwt. rewrite !hasChar_app.
    rewrite !(showN_digits " ") by (right; reflexivity). reflexivity.
  - unfold demoJwt. discriminate.
Qed.

(** X16. An OAuth state is good for one callback of its own provider: a
    state just issued for GitHub is accepted by the GitHub callback and
    consumed, so presenting it again is refused; a state issued for
    Google is refused by the GitHub callback and stays in the map. *)
Theorem oauth_state_single_use
    (stateClock : N) (timestamp : Z) (oauthStates : gmap string StateData)
    (n1 n2 n3 n4 : N) :
  let issued := issueState "github" stateClock timestamp oauthStates in
  let first := githubCallback n1 n2 (snd issued) (fst issued) in
  let foreign := issueState "google" stateClock timestamp oauthStates in
  fst first = CallbackTokens (plainJwt n1) ("mock-refresh-token-" +:+ Js.showN n2)
  /\ githubCallback n3 n4 (snd first) (fst issued)
     = (CallbackError 400 "Invalid state parameter", snd first)
  /\ githubCallback n1 n2 (snd foreign) (fst foreign)
     = (CallbackError 400 "Invalid state parameter", snd foreign).
Proof.
  cbv zeta. unfold issueState. cbn [fst snd].
  assert (Hfresh : forall p,
    filter (fun kv : string * StateData =>
              ~ (10 * 60 * 1000 < timestamp - Auth.timestamp (snd kv)))
           (<[Js.showN stateClock := mkState p timestamp]> oauthStates)
      !! Js.showN stateClock = Some (mkState p timestamp)).
  { intros p. apply map_lookup_filter_Some. split; [apply lookup_insert_eq|].
    cbn [snd Auth.timestamp]. lia. }
  unfold githubCallback. rewrite !Hfresh. cbn [provider].
  change (String.eqb "github" "github") with true.
  change (String.eqb "google" "github") with false.
  cbv iota. cbn [fst snd]. rewrite lookup_delete_eq. repeat split.
Qed.

End AuthExtras.

(** ** The rate limiter *)

Module RateLimiterExtras.
Import RateLimiter.

(** A request of one client leaves the windows of all others alone. *)
Lemma rateLimiter_other (requests : gmap string Window) (ip other : string) (now : Z) :
  other <> ip -> snd (rateLimiter requests ip now) !! other = requests !! other.
Proof.
  intros Hne. unfold rateLimiter.
  destruct (requests !! ip) as [w|]; cbn [snd];
    [|apply lookup_insert_ne; congruence].
  destruct (resetTime w <? now); cbn [snd]; [apply lookup_insert_ne; congruence|].
  destruct (maxRequests <=? count w); cbn [snd];
    [reflexivity | apply lookup_insert_ne; congruence].
Qed.

Lemma passed_cons (ip client : string) (d : Decision) (ds : list (string * Decision)) :
  passed ip ((client, d) :: ds) =
  ((if String.eqb client ip && match d with Next => true | _ => false end
    then 1 else 0) + passed ip ds)%nat.
Proof.
  unfold passed. cbn [List.filter fst snd].
  destruct (String.eqb client ip && match d with Next => true | _ => false end);
    reflexivity.
Qed.

Lemma callsOf_cons (ip client : string) (t : Z) (calls : list (string * Z)) :
  callsOf ip ((client, t) :: calls) =
  ((if String.eqb client ip then 1 else 0) + callsOf ip calls)%nat.
Proof.
  unfold callsOf. cbn [List.filter fst].
  destruct (String.eqb client ip); reflexivity.
Qed.

(** Inside an open window with [c] requests counted, the client's next
    requests pass until the count reaches [maxRequests], whatever other
    clients do in between. *)
Lemma serve_in_window (ip : string) (reset : Z) (calls : list (string * Z)) :
  forall (requests : gmap string Window) (c : Z),
    requests !! ip = Some (mkWindow c reset) ->
    (forall t, In (ip, t) calls -> t <= reset) ->
    passed ip (fst (serve requests calls))
    = Nat.min (callsOf ip calls) (Z.to_nat (maxRequests - c)).
Proof.
  induction calls as [|[client t] calls IH]; intros requests c Hw Hin.
  - reflexivity.
  - cbn [serve].
    destruct (rateLimiter requests client t) as [d requests'] eqn:Hrl.
    destruct (serve requests' calls) as [ds final] eqn:Hs.
    cbn [fst]. rewrite passed_cons, callsOf_cons.
    assert (Hrest : forall u, In (ip, u) calls -> u <= reset)
      by (intros u Hu; apply Hin; right; exact Hu).
    destruct (String.eqb_spec client ip) as [->|Hne].
    + assert (Ht : t <= reset) by (apply Hin; left; reflexivity).
      unfold rateLimiter in Hrl. rewrite Hw in Hrl. cbn [resetTime count] in Hrl.
      destruct (Z.ltb_spec reset t) as [|_]; [lia|].
      destruct (Z.leb_spec maxRequests c) as [Hfull|Hroom].
      * injection Hrl as <- <-.
        pose proof (IH requests c Hw Hrest) as IH'. rewrite Hs in IH'. cbn [fst] in IH'.
        cbn [andb]. rewrite IH'. lia.
      * injection Hrl as <- <-.
        pose proof (IH (<[ip := mkWindow (c + 1) reset]> requests) (c + 1)
                       (lookup_insert_eq _ _ _) Hrest) as IH'.
        rewrite Hs in IH'. cbn [fst] in IH'.
        cbn [andb]. rewrite IH'. lia.
    + assert (Hw' : requests' !! ip = Some (mkWindow c reset)).
      { replace requests' with (snd (rateLimiter requests client t)) by (rewrite Hrl; reflexivity).
        rewrite rateLimiter_other by congruence. exact Hw. }
      pose proof (IH requests' c Hw' Hrest) as IH'. rewrite Hs in IH'. cbn [fst] in IH'.
      cbn [andb]. rewrite IH'. lia.
Qed.

(** X17. A request that finds no window, or an expired one, opens a new
    one and passes; of the client's following requests up to the reset
    time exactly the first 99 pass, so a window admits at most 100
    requests of one client, whatever other clients send in between. *)
Theorem window_admits_at_most_100 (requests : gmap string Window) (ip : string)
    (t0 : Z) (calls : list (string * Z)) :
  (forall w, requests !! ip = Some w -> resetTime w < t0) ->
  (forall t, In (ip, t) calls -> t <= t0 + windowMs) ->
  fst (rateLimiter requests ip t0) = Next
  /\ passed ip (fst (serve (snd (rateLimiter requests ip t0)) calls))
     = Nat.min (callsOf ip calls) 99.
Proof.
  intros Hexp Hin.
  assert (Hopen : rateLimiter requests ip t0
                  = (Next, <[ip := mkWindow 1 (t0 + windowMs)]> requests)).
  { unfold rateLimiter. destruct (requests !! ip) as [w|] eqn:Hw; [|reflexivity].
    specialize (Hexp w eq_refl).
    destruct (Z.ltb_spec (resetTime w) t0); [reflexivity | lia]. }
  rewrite Hopen. cbn [fst snd]. split; [reflexivity|].
  rewrite (serve_in_window ip (t0 + windowMs) calls _ 1 (lookup_insert_eq _ _ _) Hin).
  reflexivity.
Qed.

Lemma window_admits_at_most_100_witness :
  fst (rateLimiter ∅ "10.0.0.1" 1000) = Next
  /\ passed "10.0.0.1"
       (fst (serve (snd (rateLimiter ∅ "10.0.0.1" 1000))
               (List.repeat ("10.0.0.1", 2000) 150 ++ [("10.0.0.2", 2500)])))
     = Nat.min (callsOf "10.0.0.1"
                  (List.repeat ("10.0.0.1", 2000) 150 ++ [("10.0.0.2", 2500)])) 99.
Proof.
  refine (window_admits_at_most_100 ∅ "10.0.0.1" 1000
            (List.repeat ("10.0.0.1", 2000) 150 ++ [("10.0.0.2", 2500)]) _ _).
  - intros w Hw. rewrite lookup_empty in Hw. discriminate Hw.
  - intros t Ht. apply in_app_or in Ht as [Ht|[Ht|[]]].
    + apply List.repeat_spec in Ht. injection Ht as ->. vm_compute. discriminate.
    + discriminate Ht.
Defined.

Lemma cleanup_lookup (now : Z) (requests : gmap string Window) (ip : string) :
  cleanup now requests !! ip =
  match requests !! ip with
  | Some w => if resetTime w <? now then None else Some w
  | None => None
  end.
Proof.
  unfold cleanup. destruct (requests !! ip) as [w|] eqn:Hw.
  - destruct (Z.ltb_spec (resetTime w) now) as [Hold|Hlive].
    + apply map_lookup_filter_None. right. intros x Hx. rewrite Hw in Hx.
      injection Hx as <-. cbn [snd]. intros Hn. exact (Hn Hold).
    + apply map_lookup_filter_Some. split; [exact Hw|]. cbn [snd]. lia.
  - apply map_lookup_filter_None. left. exact Hw.
Qed.

(** X18. The periodic cleanup is invisible to clients: a request that
    arrives at or after the cleanup gets the same decision, and leaves
    the same window for its client, as if the cleanup had not run. *)
Theorem cleanup_changes_no_decision (requests : gmap string Window) (ip : string)
    (cleanedAt now : Z) :
  cleanedAt <= now ->
  fst (rateLimiter (cleanup cleanedAt requests) ip now) = fst (rateLimiter requests ip now)
  /\ snd (rateLimiter (cleanup cleanedAt requests) ip now) !! ip
     = snd (rateLimiter requests ip now) !! ip.
Proof.
  intros Hle. unfold rateLimiter. rewrite cleanup_lookup.
  destruct (requests !! ip) as [w|] eqn:Hw.
  - destruct (Z.ltb_spec (resetTime w) cleanedAt) as [Hold|Hlive].
    + destruct (Z.ltb_spec (resetTime w) now); [|lia].
      cbn [fst snd]. rewrite !lookup_insert_eq. split; reflexivity.
    + destruct (resetTime w <? now); cbn [fst snd].
      * rewrite !lookup_insert_eq. split; reflexivity.
      * destruct (maxRequests <=? count w); cbn [fst snd].
        -- split; [reflexivity|]. rewrite cleanup_lookup, Hw.
           destruct (Z.ltb_spec (resetTime w) cleanedAt); [lia | reflexivity].
        -- rewrite !lookup_insert_eq. split; reflexivity.
  - cbn [fst snd]. rewrite !lookup_insert_eq. split; reflexivity.
Qed.

Lemma cleanup_changes_no_decision_witness :
  fst (rateLimiter (cleanup 70000 {[ "10.0.0.1" := mkWindow 100 61000 ]}) "10.0.0.1" 70001)
  = fst (rateLimiter {[ "10.0.0.1" := mkWindow 100 61000 ]} "10.0.0.1" 70001)
  /\ snd (rateLimiter (cleanup 70000 {[ "10.0.0.1" := mkWindow 100 61000 ]})
            "10.0.0.1" 70001) !! "10.0.0.1"
     = snd (rateLimiter {[ "10.0.0.1" := mkWindow 100 61000 ]} "10.0.0.1" 70001)
         !! "10.0.0.1".
Proof.
  refine (cleanup_changes_no_decision {[ "10.0.0.1" := mkWindow 100 61000 ]}
            "10.0.0.1" 70000 70001 _).
  vm_compute. discriminate.
Defined.

(** X19. A refused request changes nothing, its [retryAfter] is not
    negative, and a client that comes back later than [retryAfter]
    seconds after the refusal is let through. *)
Theorem retry_after_is_enough (requests requests' : gmap string Window) (ip : string)
    (now retryAfter later : Z) :
  rateLimiter requests ip now = (TooManyRequests retryAfter, requests') ->
  now + 1000 * retryAfter < later ->
  requests' = requests
  /\ 0 <= retryAfter
  /\ fst (rateLimiter requests' ip later) = Next.
Proof.
  unfold rateLimiter. intros Hrl Hlater.
  destruct (requests !! ip) as [w|] eqn:Hw; [|discriminate Hrl].
  destruct (Z.ltb_spec (resetTime w) now) as [|Hlive]; [discriminate Hrl|].
  destruct (maxRequests <=? count w); [|discriminate Hrl].
  injection Hrl as <- <-.
  unfold Js.ceilDiv1000 in *.
  pose proof (Z.mul_div_le (- (resetTime w - now)) 1000 ltac:(lia)) as Hdiv.
  pose proof (Z.div_le_upper_bound (- (resetTime w - now)) 1000 0 ltac:(lia) ltac:(lia))
    as Hneg.
  split; [reflexivity|]. split; [lia|].
  rewrite Hw. destruct (Z.ltb_spec (resetTime w) later); [reflexivity | lia].
Qed.

Lemma retry_after_is_enough_witness :
  ({[ "10.0.0.1" := mkWindow 100 61000 ]} : gmap string Window)
  = {[ "10.0.0.1" := mkWindow 100 61000 ]}
  /\ 0 <= 11
  /\ fst (rateLimiter {[ "10.0.0.1" := mkWindow 100 61000 ]} "10.0.0.1" 61001) = Next.
Proof.
  refine (retry_after_is_enough {[ "10.0.0.1" := mkWindow 100 61000 ]} _ "10.0.0.1"
            50000 11 61001 _ _).
  - vm_compute. reflexivity.
  - vm_compute. reflexivity.
Defined.

End RateLimiterExtras.

(** ** More on the compilation service *)

Module ServiceExtras.
Import CompilationService.

(** X20. The validator accepts a request exactly when it names a
    workspace and a language, has at least one source file and its
    contents are at most 1 MB (1048576 characters) together. *)
Theorem validation_accepts_iff (request : CompilationRequest) :
  fst (validateCompilationRequest request) = Returns
  <-> workspaceId request <> "" /\ language request <> ""
      /\ exists f files,
           sourceFiles request = Some (f :: files)
           /\ (N.of_nat (list_sum (List.map (fun x => String.length (content x))
                                            (f :: files))) <= 1048576)%N.
Proof.
  unfold validateCompilationRequest.
  destruct (String.eqb_spec (workspaceId request) "") as [Hw|Hw];
    [split; [discriminate | intros [H _]; contradiction]|].
  destruct (String.eqb_spec (language request) "") as [Hl|Hl];
    [split; [discriminate | intros (_ & H & _); contradiction]|].
  destruct (sourceFiles request) as [[|f files]|];
    try (split; [discriminate | intros (_ & _ & g & gs & Hs & _); discriminate Hs]).
  assert (Hsize : totalSize (f :: files)
                  = N.of_nat (list_sum (List.map (fun x => String.length (content x))
                                                 (f :: files)))).
  { unfold totalSize. rewrite ServiceFacts.totalSize_from. lia. }
  destruct (N.ltb_spec (1024 * 1024) (totalSize (f :: files))) as [Hbig|Hfits].
  - split; [discriminate|]. intros (_ & _ & g & gs & [= <- <-] & Hle).
    rewrite Hsize in Hbig. lia.
  - split; [|reflexivity]. intros _. repeat split; try assumption.
    exists f, files. split; [reflexivity|]. rewrite <- Hsize. lia.
Qed.

(** X21. A user may compile in a workspace exactly when the workspace
    exists and the user owns it or holds a share of it with permission
    [write]; a share with any other permission gives no access. *)
Theorem workspace_access_iff (s : Store) (userId wsId : string) :
  checkWorkspacePermissions s userId wsId = Returns
  <-> exists owner,
        workspaces s !! wsId = Some owner
        /\ (owner = userId
            \/ exists share, In share (shares s)
                 /\ share_workspace share = wsId
                 /\ shared_with_user_id share = userId
                 /\ permission_level share = "write").
Proof.
  unfold checkWorkspacePermissions.
  destruct (workspaces s !! wsId) as [owner|];
    [|split; [discriminate | intros (o & Ho & _); discriminate Ho]].
  destruct (String.eqb_spec owner userId) as [->|Hne].
  - cbn [orb]. split; [|reflexivity]. intros _. exists userId. split; [reflexivity|].
    left. reflexivity.
  - cbn [orb].
    destruct (existsb _ (shares s)) eqn:Hex.
    + split; [|reflexivity]. intros _. exists owner. split; [reflexivity|]. right.
      apply List.existsb_exists in Hex as (share & Hin & Hok).
      apply andb_prop in Hok as [Hok Hp]. apply andb_prop in Hok as [Hws Hu].
      exists share. repeat split; [exact Hin | | |]; apply String.eqb_eq; assumption.
    + split; [discriminate|]. intros (o & [= <-] & [Heq|(share & Hin & Hws & Hu & Hp)]);
        [contradiction|].
      assert (Htrue : existsb (fun sh => String.eqb (share_workspace sh) wsId
                                 && String.eqb (shared_with_user_id sh) userId
                                 && String.eqb (permission_level sh) "write")
                              (shares s) = true).
      { apply List.existsb_exists. exists share. split; [exact Hin|].
        rewrite Hws, Hu, Hp, !String.eqb_refl. reflexivity. }
      rewrite Htrue in Hex. discriminate Hex.
Qed.

(** X22. A submission refused by the validator, by the workspace check
    or for its language is thrown back to the caller and, the job id
    being fresh, leaves the store exactly as it was: no job is created. *)
Theorem refused_submission_leaves_store
    (jobId : string) (now : Z) (judge0 : string -> option string) (s : Store)
    (userId : string) (request : CompilationRequest) :
  jobs s !! jobId = None ->
  (fst (validateCompilationRequest request) <> Returns
   \/ checkWorkspacePermissions s userId (workspaceId request) <> Returns
   \/ langConfig (language request) = None) ->
  snd (submitCompilation jobId now judge0 s userId request) = s
  /\ exists message,
       fst (submitCompilation jobId now judge0 s userId request) = SubmitThrows message.
Proof.
  intros Hfresh Hrefused. unfold submitCompilation.
  destruct (fst (validateCompilationRequest request)) as [|m];
    [|split; [apply ServiceFacts.updateJobStatus_absent, Hfresh | eexists; reflexivity]].
  destruct (checkWorkspacePermissions s userId (workspaceId request)) as [|m];
    [|split; [apply ServiceFacts.updateJobStatus_absent, Hfresh | eexists; reflexivity]].
  destruct (langConfig (language request)) as [cfg|];
    [|split; [apply ServiceFacts.updateJobStatus_absent, Hfresh | eexists; reflexivity]].
  exfalso. destruct Hrefused as [H|[H|H]]; [apply H; reflexivity.. | discriminate H].
Qed.

Lemma refused_submission_leaves_store_witness :
  let s := mkStore ∅ {[ "ws-1" := "alice" ]} [mkShare "ws-1" "bob" "read"] ∅ in
  let request := mkRequest "ws-1" "python" (Some [mkFile "main.py" "print(1)"]) None None in
  snd (submitCompilation "job-1" 5 (fun _ => Some "tok") s "bob" request) = s
  /\ exists message,
       fst (submitCompilation "job-1" 5 (fun _ => Some "tok") s "bob" request)
       = SubmitThrows message.
Proof.
  refine (refused_submission_leaves_store "job-1" 5 (fun _ => Some "tok")
            (mkStore ∅ {[ "ws-1" := "alice" ]} [mkShare "ws-1" "bob" "read"] ∅) "bob"
            (mkRequest "ws-1" "python" (Some [mkFile "main.py" "print(1)"]) None None)
            (lookup_empty _) _).
  right. left. vm_compute. discriminate.
Defined.

Lemma lookup_after_metadata (s : Store) (jobId token : string) (row : Row) :
  jobs s !! jobId = Some row ->
  exists row', jobs (updateJobMetadata s jobId token) !! jobId = Some row'
    /\ user_id row' = user_id row /\ status row' = status row
    /\ formatCompilationResult row' = formatCompilationResult row
    /\ cache (updateJobMetadata s jobId token) = cache s.
Proof.
  intros Hrow. unfold updateJobMetadata. rewrite Hrow. cbn [withJobs jobs cache].
  eexists. split; [apply lookup_insert_eq|]. repeat split.
Qed.

(** X23. When a submission goes through, the caller gets the pending
    result with the new job id, and the job is at once visible to its
    owner and to nobody else: the owner's status query returns the
    pending job without a completion time, any other user's query
    returns [null]. *)
Theorem accepted_submission_is_pending_for_owner
    (jobId : string) (now : Z) (judge0 : string -> option string) (s : Store)
    (userId : string) (request : CompilationRequest)
    (result : CompilationResult) (token : string) :
  cache s !! jobId = None ->
  fst (submitCompilation jobId now judge0 s userId request) = SubmitOk result token ->
  let s' := snd (submitCompilation jobId now judge0 s userId request) in
  result = mkCompilationResult jobId Pending None None None None None now None
  /\ fst (getCompilationStatus true s' userId jobId) = Some result
  /\ (forall stranger, stranger <> userId ->
        fst (getCompilationStatus true s' stranger jobId) = None).
Proof.
  intros Hcache. unfold submitCompilation.
  destruct (fst (validateCompilationRequest request)); [|discriminate].
  destruct (checkWorkspacePermissions s userId (workspaceId request)); [|discriminate].
  destruct (langConfig (language request)); [|discriminate].
  destruct (prepareSourceCode _ _) as [sourceCode|]; [|discriminate].
  destruct (judge0 sourceCode) as [tok|]; [|discriminate].
  cbn [fst snd]. intros [= <- <-]. cbv zeta.
  set (row := createCompilationJob jobId userId request now).
  set (s1 := withJobs s (<[jobId := row]> (jobs s)) (cache s)).
  destruct (lookup_after_metadata s1 jobId tok row (lookup_insert_eq _ _ _))
    as (row' & Hrow' & Huser & _ & Hfmt & Hc).
  split; [reflexivity|].
  assert (Hnocache : cache (updateJobMetadata s1 jobId tok) !! jobId = None)
    by (rewrite Hc; exact Hcache).
  split.
  - unfold getCompilationStatus. cbn [negb]. rewrite Hnocache, Hrow', Huser.
    cbn [row createCompilationJob user_id]. rewrite String.eqb_refl. cbn [fst].
    rewrite Hfmt. reflexivity.
  - intros stranger Hne. unfold getCompilationStatus. cbn [negb].
    rewrite Hnocache, Hrow', Huser. cbn [row createCompilationJob user_id].
    destruct (String.eqb_spec userId stranger); [congruence | reflexivity].
Qed.

Lemma accepted_submission_is_pending_for_owner_witness :
  let s := mkStore ∅ {[ "ws-1" := "alice" ]} [] ∅ in
  let request := mkRequest "ws-1" "python" (Some [mkFile "main.py" "print(1)"]) None None in
  let result := mkCompilationResult "job-1" Pending None None None None None 5 None in
  let s' := snd (submitCompilation "job-1" 5 (fun _ => Some "tok") s "alice" request) in
  result = mkCompilationResult "job-1" Pending None None None None None 5 None
  /\ fst (getCompilationStatus true s' "alice" "job-1") = Some result
  /\ (forall stranger, stranger <> "alice" ->
        fst (getCompilationStatus true s' stranger "job-1") = None).
Proof.
  refine (accepted_submission_is_pending_for_owner "job-1" 5 (fun _ => Some "tok")
            (mkStore ∅ {[ "ws-1" := "alice" ]} [] ∅) "alice"
            (mkRequest "ws-1" "python" (Some [mkFile "main.py" "print(1)"]) None None)
            _ "tok" (lookup_empty _) _).
  vm_compute. reflexivity.
Defined.





Lemma poll_until_result (remote : nat -> PollOutcome) (r : Judge0Result) (n : nat) :
  forall fuel attempts : nat,
    (attempts + S n <= maxAttempts)%nat -> (S n <= fuel)%nat ->
    (forall j, (attempts < j < attempts + S n)%nat -> unsettled (remote j) = true) ->
    remote (attempts + S n)%nat = GetReturns r -> stillProcessing r = false ->
    Wait 1000 :: poll fuel attempts remote =
    flat_map (fun k => [Wait 1000; Get k]) (seq (S attempts) (S n)) ++ [completion r].
Proof.
  induction n as [|n IH]; intros fuel attempts Hbound Hfuel Hun Hr Hdone;
    (destruct fuel as [|fuel]; [lia|]).
  - replace (attempts + 1)%nat with (S attempts) in Hr by lia.
    cbn [poll seq flat_map app]. rewrite Hr, Hdone. reflexivity.
  - rewrite ServiceFacts.rounds_from.
    assert (Hu : unsettled (remote (S attempts)) = true) by (apply Hun; lia).
    assert (Hlt : (S attempts <? maxAttempts)%nat = true) by (apply Nat.ltb_lt; lia).
    assert (IH' := IH fuel (S attempts) ltac:(lia) ltac:(lia)
                      ltac:(intros j Hj; apply Hun; lia)
                      ltac:(replace (S attempts + S n)%nat with (attempts + S (S n))%nat
                              by lia; exact Hr)
                      Hdone).
    change (poll (S fuel) attempts remote)
      with (Get (S attempts) ::
            match remote (S attempts) with
            | GetReturns r =>
                if stillProcessing r then
                  if (S attempts <? maxAttempts)%nat
                  then Wait 1000 :: poll fuel (S attempts) remote
                  else [timedOut]
                else [completion r]
            | GetFails =>
                if (S attempts <? maxAttempts)%nat
                then Wait 1000 :: poll fuel (S attempts) remote
                else [pollFailed]
            end).
    rewrite Hlt. cbn [app]. f_equal. f_equal.
    unfold unsettled in Hu.
    destruct (remote (S attempts)) as [|r0]; [exact IH'|].
    rewrite Hu. exact IH'.
Qed.

(** X25. The polling stops at the first GET that brings a final result:
    if that is the [k]-th one, exactly [k] GETs are made, one second
    apart, and the job gets the status of that result: [success] when
    Judge0's status id is 3, [error] for every other id. *)
Theorem polling_stops_at_first_result (remote : nat -> PollOutcome) (k : nat)
    (r : Judge0Result) :
  (1 <= k <= 30)%nat ->
  (forall j, (1 <= j < k)%nat -> unsettled (remote j) = true) ->
  remote k = GetReturns r -> stillProcessing r = false ->
  pollJudge0Results remote = rounds k ++ [completion r]
  /\ exists u, completion r = Update (statusOf r) u.
Proof.
  intros Hk Hun Hr Hdone. split.
  - unfold pollJudge0Results, rounds.
    destruct k as [|n]; [lia|].
    apply (poll_until_result remote r n maxAttempts 0);
      [unfold maxAttempts; lia | unfold maxAttempts; lia | | exact Hr | exact Hdone].
    intros j Hj. apply Hun. lia.
  - unfold completion, statusOf.
    destruct (j_status_id r) as [[|[[|[]|]|[]|]|]|]; eexists; reflexivity.
Qed.

Lemma polling_stops_at_first_result_witness :
  let remote := fun k : nat =>
    if (k <? 4)%nat then GetReturns (mkJudge0 (Some 1) None None None None None)
    else GetReturns (mkJudge0 (Some 3) (Some "42") None None (Some (3 # 1000)) (Some 900)) in
  pollJudge0Results remote
  = rounds 4 ++ [completion (mkJudge0 (Some 3) (Some "42") None None (Some (3 # 1000))
                                      (Some 900))]
  /\ exists u,
       completion (mkJudge0 (Some 3) (Some "42") None None (Some (3 # 1000)) (Some 900))
       = Update Success u.
Proof.
  refine (polling_stops_at_first_result
            (fun k : nat =>
               if (k <? 4)%nat then GetReturns (mkJudge0 (Some 1) None None None None None)
               else GetReturns (mkJudge0 (Some 3) (Some "42") None None (Some (3 # 1000))
                                         (Some 900)))
            4 (mkJudge0 (Some 3) (Some "42") None None (Some (3 # 1000)) (Some 900))
            _ _ eq_refl eq_refl).
  - lia.
  - intros j Hj. destruct (Nat.ltb_spec j 4); [reflexivity | lia].
Defined.

Lemma poll_gets_bounded (remote : nat -> PollOutcome) (fuel : nat) :
  forall attempts : nat,
    (length (List.filter isGet (poll fuel attempts remote)) <= fuel)%nat.
Proof.
  induction fuel as [|fuel IH]; intros attempts; [cbn; lia|].
  cbn [poll List.filter isGet length].
  specialize (IH (S attempts)).
  destruct (remote (S attempts)) as [|r].
  - destruct (S attempts <? maxAttempts)%nat; cbn [List.filter isGet length]; [lia|].
    cbn. lia.
  - destruct (stillProcessing r).
    + destruct (S attempts <? maxAttempts)%nat; cbn [List.filter isGet length]; [lia|].
      cbn. lia.
    + unfold completion. cbn. lia.
Qed.

(** X26. The polling always comes to an end, whatever Judge0 does: it
    makes at most 30 GETs and then writes the job's status once, and that
    status is terminal. *)
Theorem polling_always_settles (remote : nat -> PollOutcome) :
  exists pre st u,
    pollJudge0Results remote = pre ++ [Update st u]
    /\ isTerminal st = true
    /\ List.filter isUpdate pre = []
    /\ (length (List.filter isGet pre) <= 30)%nat.
Proof.
  destruct (ServiceFacts.poll_settles remote maxAttempts 0 ltac:(lia)
              ltac:(unfold maxAttempts; lia)) as (pre & st & u & Hp & Ht & Hpre).
  exists (Wait 1000 :: pre), st, u.
  unfold pollJudge0Results. rewrite Hp. split; [reflexivity|]. split; [exact Ht|].
  split.
  - cbn [List.filter isUpdate]. clear Hp.
    induction pre as [|step pre IH]; [reflexivity|].
    inversion Hpre as [|? ? Hstep Hrest]; subst.
    destruct step as [ms|k|st' u']; cbn [List.filter isUpdate]; [apply IH, Hrest..|].
    exfalso. exact (Hstep st' u' eq_refl).
  - pose proof (poll_gets_bounded remote maxAttempts 0) as Hb.
    rewrite Hp, List.filter_app, length_app in Hb.
    cbn [List.filter isGet length] in *. unfold maxAttempts in Hb. lia.
Qed.

(** X27. [executeProgram] either throws and records nothing, or it found
    the caller's own job in state [success], appended exactly one
    execution row for it and returned that row's data; the recorded
    status is [success] exactly when the exit code is 0. *)
Theorem execution_needs_own_successful_job
    (executionId : string) (now : Z)
    (judge0 : string -> string -> CodeRunner.Settled Judge0Result)
    (s : Store) (executions : list ExecutionRow) (userId jobId input : string) :
  (exists message,
     executeProgram executionId now judge0 s executions userId jobId input
     = (ExecuteThrows message, executions))
  \/ (exists reply row job,
        executeProgram executionId now judge0 s executions userId jobId input
        = (ExecutedOk reply, executions ++ [row])
        /\ jobs s !! jobId = Some job /\ user_id job = userId /\ status job = Success
        /\ compilation_job_id row = jobId /\ x_stdin row = input
        /\ x_completed_at row = now
        /\ x_status row = p_status reply /\ x_exit_code row = p_exitCode reply
        /\ x_stdout row = p_stdout reply
        /\ (p_status reply = Success <-> p_exitCode reply = 0)).
Proof.
  unfold executeProgram.
  destruct (jobs s !! jobId) as [job|] eqn:Hjob; [|left; eexists; reflexivity].
  destruct (String.eqb_spec (user_id job) userId) as [Hu|Hu];
    [|left; eexists; reflexivity].
  destruct (status job) eqn:Hs; try (left; eexists; reflexivity).
  destruct (prepareSourceCode _ _) as [sourceCode|]; [|left; eexists; reflexivity].
  destruct (langConfig _); [|left; eexists; reflexivity].
  destruct (judge0 sourceCode input) as [result|m]; [|left; eexists; reflexivity].
  right. do 2 eexists. exists job. split; [reflexivity|].
  repeat split; try assumption; cbn [p_status p_exitCode]; unfold statusOf, exitCodeOf.
  - destruct (j_status_id result) as [[|[[|[]|]|[]|]|]|]; intros H;
      try reflexivity; discriminate H.
  - destruct (j_status_id result) as [[|[[|[]|]|[]|]|]|]; intros H;
      try reflexivity; try discriminate H; cbn in H; lia.
Qed.

Example execution_of_successful_job :
  let row := mkRow "job-1" "alice" "ws-1" "python" [mkFile "main.py" "print(input())"]
                   None Success (Some "") None (Some 0) None None (Some "tok") 1 (Some 2) in
  let s := mkStore {[ "job-1" := row ]} ∅ [] ∅ in
  let judge0 := fun (_ input : string) =>
    CodeRunner.Fulfilled (mkJudge0 (Some 3) (Some input) None None None None) in
  executeProgram "exec-1" 9 judge0 s [] "alice" "job-1" "hi"
  = (ExecutedOk (mkExecutionReply "exec-1" "hi" "" 0 0 0 Success),
     [mkExecutionRow "exec-1" "job-1" "hi" "hi" "" 0 0 0 Success 9])
  /\ executeProgram "exec-1" 9 judge0 s [] "bob" "job-1" "hi"
     = (ExecuteThrows "Successful compilation job not found", []).
Proof. split; vm_compute; reflexivity. Qed.

(** X28. Asking for a status twice gives the same answer, and the second
    query reads nothing new: after the first one the store, cache
    included, does not change any more. *)
Theorem status_query_is_idempotent (s : Store) (userId jobId : string) :
  let first := getCompilationStatus true s userId jobId in
  getCompilationStatus true (snd first) userId jobId = (fst first, snd first).
Proof.
  cbv zeta. unfold getCompilationStatus. cbn [negb].
  destruct (cache s !! jobId) as [cached|] eqn:Hc.
  - destruct (String.eqb (user_id cached) userId) eqn:Hcu.
    + cbn [fst snd]. rewrite Hc, Hcu. reflexivity.
    + destruct (jobs s !! jobId) as [job|] eqn:Hj.
      * destruct (String.eqb (user_id job) userId) eqn:Hju.
        -- cbn [fst snd withJobs cache jobs]. rewrite lookup_insert_eq, Hju.
           reflexivity.
        -- cbn [fst snd]. rewrite Hc, Hcu, Hj, Hju. reflexivity.
      * cbn [fst snd]. rewrite Hc, Hcu, Hj. reflexivity.
  - destruct (jobs s !! jobId) as [job|] eqn:Hj.
    + destruct (String.eqb (user_id job) userId) eqn:Hju.
      * cbn [fst snd withJobs cache jobs]. rewrite lookup_insert_eq, Hju. reflexivity.
      * cbn [fst snd]. rewrite Hc, Hj, Hju. reflexivity.
    + cbn [fst snd]. rewrite Hc, Hj. reflexivity.
Qed.

Lemma startsWith_app (t b : string) : Js.startsWith t (t +:+ b) = true.
Proof.
  induction t as [|c t IH]; [destruct b; reflexivity|].
  rewrite StringFacts.app_cons. cbn [Js.startsWith]. rewrite Ascii.eqb_refl. exact IH.
Qed.

Lemma includes_unfold (t s : string) :
  Js.includes t s =
  Js.startsWith t s || match s with String _ s' => Js.includes t s' | EmptyString => false end.
Proof. destruct s; reflexivity. Qed.

Lemma includes_app (t a b : string) : Js.includes t (a +:+ t +:+ b) = true.
Proof.
  induction a as [|c a IH].
  - rewrite StringFacts.app_nil_l, includes_unfold, startsWith_app. reflexivity.
  - rewrite StringFacts.app_cons, includes_unfold, IH. apply orb_true_r.
Qed.

Lemma join_holds_member (sep x : string) (xs : list string) :
  In x xs -> exists pre post, Js.join sep xs = pre +:+ x +:+ post.
Proof.
  induction xs as [|y ys IH]; intros Hin; [destruct Hin|].
  destruct ys as [|z zs].
  - destruct Hin as [->|[]]. exists "", "". cbn [Js.join].
    rewrite StringFacts.app_nil_l, StringFacts.app_nil_r. reflexivity.
  - change (Js.join sep (y :: z :: zs)) with (y +:+ sep +:+ Js.join sep (z :: zs)).
    destruct Hin as [->|Hin].
    + exists "", (sep +:+ Js.join sep (z :: zs)). reflexivity.
    + destruct (IH Hin) as (pre & post & Hj). rewrite Hj.
      exists (y +:+ sep +:+ pre), post. rewrite !StringFacts.app_assoc. reflexivity.
Qed.

Lemma concatenated_holds (marker : string) (files : list SourceFile) (f : SourceFile) :
  In f files ->
  Js.includes (content f) (concatenated marker files) = true
  /\ Js.includes (path f) (concatenated marker files) = true.
Proof.
  intros Hin. unfold concatenated.
  destruct (join_holds_member (Js.newline +:+ Js.newline) (fileHeader marker f)
              (List.map (fileHeader marker) files)) as (pre & post & Hj).
  { apply List.in_map, Hin. }
  rewrite Hj. unfold fileHeader. split.
  - replace (pre +:+ (marker +:+ " File: " +:+ path f +:+ Js.newline +:+ content f) +:+ post)
      with ((pre +:+ marker +:+ " File: " +:+ path f +:+ Js.newline) +:+ content f +:+ post)
      by (rewrite !StringFacts.app_assoc; reflexivity).
    apply includes_app.
  - replace (pre +:+ (marker +:+ " File: " +:+ path f +:+ Js.newline +:+ content f) +:+ post)
      with ((pre +:+ marker +:+ " File: ") +:+ path f +:+ (Js.newline +:+ content f +:+ post))
      by (rewrite !StringFacts.app_assoc; reflexivity).
    apply includes_app.
Qed.

(** X12. For a submission of several files in a language other than
    Java, the source sent to Judge0 is a concatenation that loses
    nothing: it holds the path and the full content of every file. *)
Theorem concatenation_keeps_every_file (files : list SourceFile) (language : string)
    (f : SourceFile) :
  length files <> 1%nat -> language <> "java" -> In f files ->
  exists sourceCode,
    prepareSourceCode files language = Some sourceCode
    /\ Js.includes (content f) sourceCode = true
    /\ Js.includes (path f) sourceCode = true.
Proof.
  intros Hlen Hjava Hin. unfold prepareSourceCode.
  destruct files as [|f1 [|f2 rest]]; [destruct Hin | cbn in Hlen; congruence|].
  destruct (String.eqb language "cpp" || String.eqb language "c");
    [eexists; split; [reflexivity | apply concatenated_holds, Hin]|].
  destruct (String.eqb_spec language "java"); [contradiction|].
  destruct (String.eqb language "python");
    eexists; (split; [reflexivity | apply concatenated_holds, Hin]).
Qed.

Lemma concatenation_keeps_every_file_witness :
  exists sourceCode,
    prepareSourceCode [mkFile "util.py" "def f(): return 1"; mkFile "main.py" "print(f())"]
                      "python" = Some sourceCode
    /\ Js.includes "print(f())" sourceCode = true
    /\ Js.includes "main.py" sourceCode = true.
Proof.
  refine (concatenation_keeps_every_file
            [mkFile "util.py" "def f(): return 1"; mkFile "main.py" "print(f())"]
            "python" (mkFile "main.py" "print(f())") _ _ _).
  - cbn. discriminate.
  - discriminate.
  - right. left. reflexivity.
Defined.

(** X29. For Java the prepared source is never a concatenation: of the
    submitted files exactly one is sent, and the others are dropped; only
    an empty list makes the function throw. *)
Theorem java_sends_one_file (files : list SourceFile) :
  files <> [] ->
  exists f, In f files /\ prepareSourceCode files "java" = Some (content f).
Proof.
  intros Hne. unfold prepareSourceCode.
  destruct files as [|f1 [|f2 rest]]; [contradiction | exists f1; split; [left|]; reflexivity|].
  change (String.eqb "java" "cpp" || String.eqb "java" "c") with false.
  change (String.eqb "java" "java") with true. cbv iota.
  destruct (List.find _ (f1 :: f2 :: rest)) as [mainFile|] eqn:Hfind.
  - apply List.find_some in Hfind as [Hin _]. exists mainFile. split; [exact Hin | reflexivity].
  - exists f1. split; [left|]; reflexivity.
Qed.

Lemma java_sends_one_file_witness :
  exists f,
    In f [mkFile "Util.java" "class Util {}"; mkFile "App.java" "public static void main"]
    /\ prepareSourceCode
         [mkFile "Util.java" "class Util {}"; mkFile "App.java" "public static void main"]
         "java" = Some (content f).
Proof.
  refine (java_sends_one_file
            [mkFile "Util.java" "class Util {}"; mkFile "App.java" "public static void main"]
            _).
  discriminate.
Defined.

End ServiceExtras.
